(** * AgentMira dashboard: the comparison engine and the request panels

    A shallow embedding of the TypeScript components of the dashboard:
    the compare panel ([CompareProperties]: [getComparison], [getAnalysis],
    [renderOverallWinner], [compareProperties]) and the request handlers
    and reset operations of the other panels.

    JavaScript numbers are IEEE 754 binary64 values.  They are modelled by
    [spec_float] with precision 53 and maximal exponent 1024, so that
    [===], [<], [>] and [/] on numbers are [SFeqb], [SFltb] and [SFdiv]:
    not-a-number and the infinities behave as they do in the browser. *)

From Stdlib Require Import ZArith NArith List String Ascii Bool Lia.
From Stdlib Require Import DecimalString.
From Stdlib Require Import SpecFloat.
Import ListNotations.

Open Scope string_scope.

(** ** JavaScript numbers *)

Module JS.

Definition number : Type := spec_float.

Definition prec : Z := 53.
Definition emax : Z := 1024.

Definition NaN : number := S754_nan.
Definition Infinity : number := S754_infinity false.

(** The number value of a mathematical integer (round to nearest, ties
    to even). *)
Definition of_Z (z : Z) : number := binary_normalize prec emax z 0 false.

(** [x === y] on two numbers. *)
Definition strict_eq (x y : number) : bool := SFeqb x y.
(** [x < y] and [x > y]. *)
Definition lt (x y : number) : bool := SFltb x y.
Definition gt (x y : number) : bool := SFltb y x.
Definition le (x y : number) : bool := SFleb x y.
Definition ge (x y : number) : bool := SFleb y x.
(** [x / y]. *)
Definition div (x y : number) : number := SFdiv prec emax x y.

Definition isNaN (x : number) : bool :=
  match x with S754_nan => true | _ => false end.

(** [x === 0]: both signed zeros. *)
Definition is_zero (x : number) : bool :=
  match x with S754_zero _ => true | _ => false end.

(** [array.length]. *)
Definition length {A : Type} (l : list A) : number :=
  of_Z (Z.of_nat (List.length l)).

(** *** Strings

    A string is a sequence of ASCII characters.  The white space that
    [trim], [parseInt] and [Number] skip is then TAB, LF, VT, FF, CR
    and the space. *)

Definition is_space (c : ascii) : bool :=
  let k := nat_of_ascii c in
  ((9 <=? k) && (k <=? 13) || (k =? 32))%nat.

Fixpoint trimStart (s : string) : string :=
  match s with
  | String c r => if is_space c then trimStart r else s
  | EmptyString => EmptyString
  end.

(** [trimEnd] drops the white space that only white space follows. *)
Fixpoint trimEnd (s : string) : string :=
  match s with
  | String c r =>
      match trimEnd r with
      | EmptyString => if is_space c then EmptyString else String c EmptyString
      | r' => String c r'
      end
  | EmptyString => EmptyString
  end.

Definition trim (s : string) : string := trimEnd (trimStart s).

(** [!s] and [Boolean(s)] on a string: only the empty string is falsy. *)
Definition truthy (s : string) : bool :=
  match s with EmptyString => false | _ => true end.

(** The truth value of a [string | null]. *)
Definition truthy_opt (s : option string) : bool :=
  match s with Some v => truthy v | None => false end.

(** [s.split(sep)] for a one-character separator. *)
Fixpoint split (sep : ascii) (s : string) : list string :=
  match s with
  | EmptyString => [EmptyString]
  | String c r =>
      if Ascii.eqb c sep then EmptyString :: split sep r
      else match split sep r with
           | w :: ws => String c w :: ws
           | [] => [String c EmptyString]
           end
  end.

(** The value of a character as a digit, for radices up to 36. *)
Definition digit_value (c : ascii) : option Z :=
  let k := Z.of_nat (nat_of_ascii c) in
  if ((48 <=? k) && (k <=? 57))%Z then Some (k - 48)%Z
  else if ((97 <=? k) && (k <=? 122))%Z then Some (k - 87)%Z
  else if ((65 <=? k) && (k <=? 90))%Z then Some (k - 55)%Z
  else None.

(** The longest prefix of [s] made of radix-[R] digits: its value, the
    number of its digits, and what follows it. *)
Fixpoint take_digits (R : Z) (s : string) (acc : Z) (cnt : nat)
  : Z * nat * string :=
  match s with
  | String c r =>
      match digit_value c with
      | Some d =>
          if (d <? R)%Z then take_digits R r (acc * R + d)%Z (S cnt)
          else (acc, cnt, s)
      | None => (acc, cnt, s)
      end
  | EmptyString => (acc, cnt, s)
  end.

(** The number value of [(-1)^sign * m]. *)
Definition of_signed (sign : bool) (m : Z) : number :=
  if (m =? 0)%Z then S754_zero sign
  else binary_normalize prec emax (if sign then (- m)%Z else m) 0 false.

(** [parseInt(string)] without a radix: leading white space, a sign, a
    [0x] prefix, then the longest run of digits; [NaN] when there is no
    digit. *)
Definition parseInt (input : string) : number :=
  let s := trimStart input in
  let '(sign, s) :=
    match s with
    | String "-" r => (true, r)
    | String "+" r => (false, r)
    | _ => (false, s)
    end in
  let '(R, s) :=
    match s with
    | String "0" (String "x" r) | String "0" (String "X" r) => (16%Z, r)
    | _ => (10%Z, s)
    end in
  match take_digits R s 0 0 with
  | (_, O, _) => NaN
  | (m, _, _) => of_signed sign m
  end.

(** The number value of [m * 10^e] for a positive [m], rounded once. *)
Definition of_decimal (sign : bool) (m e : Z) : number :=
  match m, e with
  | Z0, _ => S754_zero sign
  | Zpos p, Zneg k =>
      SFdiv prec emax (S754_finite sign p 0)
            (S754_finite false (10 ^ k)%positive 0)
  | _, _ => of_signed sign (m * 10 ^ e)%Z
  end.

(** [StrUnsignedDecimalLiteral]: [Infinity], or digits with an optional
    fraction and an optional exponent; the whole of [s] has to match. *)
Definition unsigned_decimal (sign : bool) (s : string) : number :=
  if String.eqb s "Infinity" then S754_infinity sign
  else
    let '(i, ni, r1) := take_digits 10 s 0 0 in
    let '(f, nf, dot, r2) :=
      match r1 with
      | String "." r =>
          let '(f, nf, r2) := take_digits 10 r i 0 in (f, nf, true, r2)
      | _ => (i, O, false, r1)
      end in
    if ((ni =? 0) && (nf =? 0))%nat then NaN
    else
      let m := f in
      let scale := Z.of_nat nf in
      match r2 with
      | EmptyString => of_decimal sign m (- scale)%Z
      | String c r3 =>
          if Ascii.eqb c "e" || Ascii.eqb c "E" then
            let '(esign, r4) :=
              match r3 with
              | String "-" r => (true, r)
              | String "+" r => (false, r)
              | _ => (false, r3)
              end in
            match take_digits 10 r4 0 0 with
            | (_, O, _) => NaN
            | (e, _, EmptyString) =>
                of_decimal sign m ((if esign then - e else e) - scale)%Z
            | _ => NaN
            end
          else NaN
      end.

(** [0b], [0o] and [0x] integer literals. *)
Definition non_decimal (R : Z) (s : string) : number :=
  match take_digits R s 0 0 with
  | (_, O, _) => NaN
  | (m, _, EmptyString) => of_signed false m
  | _ => NaN
  end.

(** [Number(string)]: the empty or blank string is [+0]; anything that
    is not a numeric literal as a whole is [NaN]. *)
Definition Number (input : string) : number :=
  match trim input with
  | EmptyString => S754_zero false
  | String "0" (String "x" r) | String "0" (String "X" r) => non_decimal 16 r
  | String "0" (String "o" r) | String "0" (String "O" r) => non_decimal 8 r
  | String "0" (String "b" r) | String "0" (String "B" r) => non_decimal 2 r
  | String "-" r => unsigned_decimal true r
  | String "+" r => unsigned_decimal false r
  | s => unsigned_decimal false s
  end.

(** Decimal rendering of a natural number, as a template literal
    renders an integer. *)
Definition N_toString (k : N) : string :=
  NilZero.string_of_uint (N.to_uint k).

End JS.

Definition number : Type := JS.number.

Declare Scope js_scope.
Delimit Scope js_scope with js.
Infix "===" := JS.strict_eq (at level 70, no associativity) : js_scope.
Infix "<" := JS.lt : js_scope.
Infix ">" := JS.gt : js_scope.
Infix "<=" := JS.le : js_scope.
Infix ">=" := JS.ge : js_scope.
Infix "/" := JS.div : js_scope.

(** ** Values exchanged with the backend *)

(** A JSON value, with [undefined] for an absent property. *)
#[local] Unset Elimination Schemes.
Inductive JSON : Type :=
| JUndefined
| JNull
| JBool (b : bool)
| JNum (x : number)
| JStr (s : string)
| JArr (items : list JSON)
| JObj (fields : list (string * JSON)).
#[local] Set Elimination Schemes.

(** What a [throw] or a rejected promise carries: an [Error] object with
    its message, or any other value. *)
Inductive thrown : Type :=
| ErrorObject (message : string)
| OtherValue.

(** [err instanceof Error ? err.message : 'Unknown error']. *)
Definition message_of (err : thrown) : string :=
  match err with
  | ErrorObject message => message
  | OtherValue => "Unknown error"
  end.

(** [v.key] for a key that is no built-in property: reading a property
    of [null] or [undefined] throws a [TypeError]; an object gives the
    value of its last field of that name, anything else [undefined]. *)
Definition get_property (v : JSON) (key : string) : thrown + JSON :=
  match v with
  | JUndefined =>
      inl (ErrorObject
             ("Cannot read properties of undefined (reading '" ++ key ++ "')"))
  | JNull =>
      inl (ErrorObject
             ("Cannot read properties of null (reading '" ++ key ++ "')"))
  | JObj fields =>
      inr (fold_left
             (fun found kv => if String.eqb (fst kv) key then snd kv else found)
             fields JUndefined)
  | _ => inr JUndefined
  end.

(** [v === s] for a string literal [s]. *)
Definition is_string (s : string) (v : JSON) : bool :=
  match v with JStr t => String.eqb t s | _ => false end.

(** [Array.isArray(v)], with the items when it holds. *)
Definition isArray (v : JSON) : option (list JSON) :=
  match v with JArr items => Some items | _ => None end.

(** The truth value of a JSON value. *)
Definition JSON_truthy (v : JSON) : bool :=
  match v with
  | JUndefined | JNull => false
  | JBool b => b
  | JNum x => negb (JS.is_zero x || JS.isNaN x)
  | JStr s => JS.truthy s
  | JArr _ | JObj _ => true
  end.

(** A template literal that interpolates one number, as in
    [`Property ${id}`]: the number is kept as it is, its decimal
    rendering is the browser's. *)
Inductive text : Type :=
| Lit (s : string)
| Interp (before : string) (x : number) (after : string).

Module Fetch.

(** The arguments of a [fetch] call; [body] is the value handed to
    [JSON.stringify]. *)
Record request : Type := {
  url : text;
  method : string;
  headers : list (string * string);
  body : option JSON
}.

(** A response: its status and what [response.json()] settles to. *)
Record response (B : Type) : Type := {
  status : N;
  json : thrown + B
}.
Arguments status {B} _.
Arguments json {B} _.

(** [response.ok]: the status is in the range 200-299. *)
Definition ok {B : Type} (r : response B) : bool :=
  ((200 <=? status r) && (status r <=? 299))%N.

(** How the promise of [fetch] settles: rejected (the call could not
    complete) or fulfilled with a response. *)
Definition settled (B : Type) : Type := (thrown + response B)%type.

Definition post (u : string) (payload : JSON) : request :=
  {| url := Lit u; method := "POST";
     headers := [("Content-Type", "application/json")];
     body := Some payload |}.

End Fetch.

(** ** Handlers

    An event handler of a panel runs over the panel's state: it calls
    state setters, issues requests and may throw.  A computation takes
    the state and the log of the calls issued so far and gives the new
    state, the extended log and a value or the thrown exception.  Each
    call is logged with the state in effect when it is issued, which is
    the state the panel shows while the call is awaited. *)

Module Handler.
Section WithState.

Context {St : Type}.

Definition call : Type := (St * Fetch.request)%type.

Record outcome (A : Type) : Type := {
  final : St;
  calls : list call;
  result : thrown + A
}.
Arguments final {A} _.
Arguments calls {A} _.
Arguments result {A} _.

Definition M (A : Type) : Type := St -> list call -> outcome A.

Definition ret {A : Type} (a : A) : M A :=
  fun s l => {| final := s; calls := l; result := inr a |}.

Definition bind {A B : Type} (m : M A) (f : A -> M B) : M B :=
  fun s l =>
    let o := m s l in
    match result o with
    | inr a => f a (final o) (calls o)
    | inl e => {| final := final o; calls := calls o; result := inl e |}
    end.

Definition throw {A : Type} (e : thrown) : M A :=
  fun s l => {| final := s; calls := l; result := inl e |}.

(** A state setter. *)
Definition set (f : St -> St) : M unit :=
  fun s l => {| final := f s; calls := l; result := inr tt |}.

(** [await fetch(...)]: the call is logged, and the promise settles as
    the network decides. *)
Definition fetch {B : Type} (req : Fetch.request) (net : Fetch.settled B)
  : M (Fetch.response B) :=
  fun s l => {| final := s; calls := (l ++ [(s, req)])%list; result := net |}.

(** An operation that gives a value or throws. *)
Definition lift {A : Type} (r : thrown + A) : M A :=
  fun s l => {| final := s; calls := l; result := r |}.

(** [await response.json()]. *)
Definition json_of {B : Type} (r : Fetch.response B) : M B :=
  fun s l => {| final := s; calls := l; result := Fetch.json r |}.

(** [try { body } catch (err) { handler } finally { fin }]: the
    [finally] block runs after the body or the handler, however they
    end, and keeps their completion unless it throws itself. *)
Definition try_catch_finally {A : Type} (body : M A)
    (handler : thrown -> M A) (fin : M unit) : M A :=
  fun s l =>
    let o1 := body s l in
    let o2 :=
      match result o1 with
      | inl e => handler e (final o1) (calls o1)
      | inr _ => o1
      end in
    let o3 := fin (final o2) (calls o2) in
    {| final := final o3; calls := calls o3;
       result := match result o3 with
                 | inl e => inl e
                 | inr _ => result o2
                 end |}.

(** A handler run from the state [s] of the render that created it. *)
Definition run {A : Type} (m : M A) (s : St) : outcome A := m s [].

End WithState.

Arguments call : clear implicits.
Arguments outcome : clear implicits.
Arguments M : clear implicits.
Arguments final {St A} _.
Arguments calls {St A} _.
Arguments result {St A} _.

End Handler.

Import Handler.

Declare Scope handler_scope.
Delimit Scope handler_scope with handler.
Notation "x <- c1 ;; c2" := (bind c1 (fun x => c2))
  (at level 61, c1 at next level, right associativity) : handler_scope.
Notation "c1 ;; c2" := (bind c1 (fun _ => c2))
  (at level 61, right associativity) : handler_scope.

(** [throw new Error(errorMsg)] when [!response.ok]. *)
Definition check_ok {St B : Type} (response : Fetch.response B)
    (errorMsg : string) : M St unit :=
  if negb (Fetch.ok response) then throw (ErrorObject errorMsg) else ret tt.

(** * The compare panel ([CompareProperties]) *)

Module CompareProperties.

(** ** The compare panel: data *)

(** [interface Property]. *)
Record Property : Type := {
  _id : string;
  id : number;
  title : string;
  location : string;
  price : number;
  bedrooms : number;
  bathrooms : number;
  size_sqft : number;
  amenities : list string;
  school_rating : number;
  commute_time : number;
  has_garage : bool;
  has_garden : bool;
  has_pool : bool;
  year_built : number
}.

Record ComparisonNotes : Type := {
  larger_property : number;
  more_expensive : number;
  more_bedrooms : number;
  more_bathrooms : number
}.

Record ComparisonSummary : Type := {
  price_difference : number;
  bedrooms_difference : number;
  bathrooms_difference : number;
  size_difference : number;
  comparison_notes : ComparisonNotes
}.

(** [interface ComparisonResponse]. *)
Record ComparisonResponse : Type := {
  status : string;
  property1 : Property;
  property2 : Property;
  comparison_summary : ComparisonSummary
}.

(** ** The comparison engine *)

(** The object [{ winner, class }] that [getComparison] returns. *)
Record comparison : Type := { winner : string; class : string }.

Definition getComparison (val1 val2 : number) (higherIsBetter : bool)
  : comparison :=
  if (val1 === val2)%js then {| winner := "Tie"; class := "tie" |}
  else
    let prop1Wins :=
      if higherIsBetter then (val1 > val2)%js else (val1 < val2)%js in
    if prop1Wins
    then {| winner := "Property 1"; class := "winner-1" |}
    else {| winner := "Property 2"; class := "winner-2" |}.

(** The object that [getAnalysis] returns; the fields are in the order
    in which the object literal lists them. *)
Record analysis : Type := {
  a_price : comparison;
  a_size : comparison;
  a_bedrooms : comparison;
  a_bathrooms : comparison;
  a_school : comparison;
  a_commute : comparison;
  a_year : comparison;
  a_value : comparison
}.

Definition getAnalysis (property1 property2 : Property) : analysis :=
  let priceComp := getComparison (price property1) (price property2) false in
  let sizeComp :=
    getComparison (size_sqft property1) (size_sqft property2) true in
  let bedroomComp :=
    getComparison (bedrooms property1) (bedrooms property2) true in
  let bathroomComp :=
    getComparison (bathrooms property1) (bathrooms property2) true in
  let schoolComp :=
    getComparison (school_rating property1) (school_rating property2) true in
  let commuteComp :=
    getComparison (commute_time property1) (commute_time property2) false in
  let yearComp :=
    getComparison (year_built property1) (year_built property2) true in
  let valueComp :=
    getComparison (price property1 / size_sqft property1)%js
                  (price property2 / size_sqft property2)%js false in
  {| a_price := priceComp; a_size := sizeComp; a_bedrooms := bedroomComp;
     a_bathrooms := bathroomComp; a_school := schoolComp;
     a_commute := commuteComp; a_year := yearComp; a_value := valueComp |}.

(** [Object.values(analysis)]: the property values in insertion order. *)
Definition Object_values (a : analysis) : list comparison :=
  [a_price a; a_size a; a_bedrooms a; a_bathrooms a;
   a_school a; a_commute a; a_year a; a_value a].

(** [items.filter(item => item.class === c).length]. *)
Definition count_class (c : string) (items : list comparison) : nat :=
  List.length (filter (fun item => String.eqb (class item) c) items).

(** What [renderOverallWinner] computes and then displays: the badge
    (title, style class, subtitle) and the score breakdown. *)
Record overall : Type := {
  overallWinner : text;
  winnerClass : string;
  winnerMessage : text;
  property1Wins : nat;
  property2Wins : nat;
  ties : nat
}.

(** [comparisonResult] is the stored response of the panel, which
    [renderOverallWinner] reads next to its argument. *)
Definition renderOverallWinner (comparisonResult : ComparisonResponse)
    (a : analysis) : overall :=
  let analysisValues := Object_values a in
  let amenitiesComp :=
    getComparison (JS.length (amenities (property1 comparisonResult)))
                  (JS.length (amenities (property2 comparisonResult))) true in
  let allComparisons := (analysisValues ++ [amenitiesComp])%list in
  let p1 := count_class "winner-1" allComparisons in
  let p2 := count_class "winner-2" allComparisons in
  let t := count_class "tie" allComparisons in
  if (p2 <? p1)%nat then
    {| overallWinner := Interp "Property " (id (property1 comparisonResult)) "";
       winnerClass := "overall-winner-1";
       winnerMessage :=
         Interp "Property " (id (property1 comparisonResult)) " is the winner";
       property1Wins := p1; property2Wins := p2; ties := t |}
  else if (p1 <? p2)%nat then
    {| overallWinner := Interp "Property " (id (property2 comparisonResult)) "";
       winnerClass := "overall-winner-2";
       winnerMessage :=
         Interp "Property " (id (property2 comparisonResult)) " is the winner";
       property1Wins := p1; property2Wins := p2; ties := t |}
  else
    {| overallWinner := Lit "It's a Tie!";
       winnerClass := "overall-tie";
       winnerMessage := Lit "Both properties are equally matched";
       property1Wins := p1; property2Wins := p2; ties := t |}.

(** [renderComparisonResults] passes the analysis of the two stored
    properties to [renderOverallWinner]. *)
Definition renderComparisonResults (comparisonResult : ComparisonResponse)
  : overall :=
  let property1 := property1 comparisonResult in
  let property2 := property2 comparisonResult in
  let analysis := getAnalysis property1 property2 in
  renderOverallWinner comparisonResult analysis.

(** ** The compare panel: state and request *)

Record State : Type := {
  compareId1 : string;
  compareId2 : string;
  comparisonResult : option ComparisonResponse;
  compareLoading : bool;
  error : option string
}.

(** The arguments of the [useState] calls. *)
Definition initial : State :=
  {| compareId1 := "1"; compareId2 := "2"; comparisonResult := None;
     compareLoading := false; error := None |}.

Definition setCompareId1 (v : string) : M State unit :=
  set (fun s =>
    {| compareId1 := v; compareId2 := compareId2 s;
       comparisonResult := comparisonResult s;
       compareLoading := compareLoading s; error := error s |}).

Definition setCompareId2 (v : string) : M State unit :=
  set (fun s =>
    {| compareId1 := compareId1 s; compareId2 := v;
       comparisonResult := comparisonResult s;
       compareLoading := compareLoading s; error := error s |}).

Definition setComparisonResult (v : option ComparisonResponse)
  : M State unit :=
  set (fun s =>
    {| compareId1 := compareId1 s; compareId2 := compareId2 s;
       comparisonResult := v;
       compareLoading := compareLoading s; error := error s |}).

Definition setCompareLoading (v : bool) : M State unit :=
  set (fun s =>
    {| compareId1 := compareId1 s; compareId2 := compareId2 s;
       comparisonResult := comparisonResult s;
       compareLoading := v; error := error s |}).

Definition setError (v : option string) : M State unit :=
  set (fun s =>
    {| compareId1 := compareId1 s; compareId2 := compareId2 s;
       comparisonResult := comparisonResult s;
       compareLoading := compareLoading s; error := v |}).

(** [compareProperties], created by the render of state [s]; [net] is how
    the call to the backend settles. *)
Definition compareProperties (s : State)
    (net : Fetch.settled ComparisonResponse) : outcome State unit :=
  let id1 := JS.parseInt (compareId1 s) in
  let id2 := JS.parseInt (compareId2 s) in
  run
    (if negb (JS.truthy (compareId1 s)) || negb (JS.truthy (compareId2 s))
     then setError (Some "Please enter both property IDs")
     else if String.eqb (compareId1 s) (compareId2 s)
     then setError (Some "Please enter different property IDs")
     else if JS.isNaN id1 || JS.isNaN id2
     then setError (Some "Please enter valid numeric IDs")
     else
       try_catch_finally
         (setCompareLoading true ;;
          setError None ;;
          response <-
            fetch (Fetch.post "http://127.0.0.1:8000/comparebyid"
                     (JObj [("id1", JNum id1); ("id2", JNum id2)])) net ;;
          check_ok response
            (if (Fetch.status response =? 404)%N
             then "Property ID not found"
             else "HTTP error! status: "
                  ++ JS.N_toString (Fetch.status response)) ;;
          result <- json_of response ;;
          setComparisonResult (Some result))%handler
         (fun err => setError (Some (message_of err)))
         (setCompareLoading false))
    s.

(** What the panel shows for a state: the error banner, the label of the
    button, and the results when a response is stored. *)
Record view : Type := {
  error_banner : option string;
  button_label : string;
  button_disabled : bool;
  results : option overall
}.

Definition render (s : State) : view :=
  {| error_banner :=
       match error s with
       | Some e => if JS.truthy e then Some e else None
       | None => None
       end;
     button_label :=
       if compareLoading s then "Comparing..." else "Compare Properties";
     button_disabled :=
       compareLoading s || negb (JS.truthy (compareId1 s))
       || negb (JS.truthy (compareId2 s));
     results := option_map renderComparisonResults (comparisonResult s) |}.

End CompareProperties.

(** * The search panel ([SearchProperties]) *)

Module SearchProperties.

Record State : Type := {
  location : string;
  budget : string;
  bedrooms : string;
  bathrooms : string;
  minSizesqft : string;
  amenitiesInput : string;
  searchResults : option JSON;
  loading : bool;
  error : option string
}.

Definition initial : State :=
  {| location := ""; budget := ""; bedrooms := ""; bathrooms := "";
     minSizesqft := ""; amenitiesInput := ""; searchResults := None;
     loading := false; error := None |}.

Definition setLocation (v : string) : M State unit :=
  set (fun s =>
    {| location := v; budget := budget s; bedrooms := bedrooms s;
       bathrooms := bathrooms s; minSizesqft := minSizesqft s;
       amenitiesInput := amenitiesInput s;
       searchResults := searchResults s; loading := loading s;
       error := error s |}).

Definition setBudget (v : string) : M State unit :=
  set (fun s =>
    {| location := location s; budget := v; bedrooms := bedrooms s;
       bathrooms := bathrooms s; minSizesqft := minSizesqft s;
       amenitiesInput := amenitiesInput s;
       searchResults := searchResults s; loading := loading s;
       error := error s |}).

Definition setBedrooms (v : string) : M State unit :=
  set (fun s =>
    {| location := location s; budget := budget s; bedrooms := v;
       bathrooms := bathrooms s; minSizesqft := minSizesqft s;
       amenitiesInput := amenitiesInput s;
       searchResults := searchResults s; loading := loading s;
       error := error s |}).

Definition setBathrooms (v : string) : M State unit :=
  set (fun s =>
    {| location := location s; budget := budget s; bedrooms := bedrooms s;
       bathrooms := v; minSizesqft := minSizesqft s;
       amenitiesInput := amenitiesInput s;
       searchResults := searchResults s; loading := loading s;
       error := error s |}).

Definition setMinSizeSquft (v : string) : M State unit :=
  set (fun s =>
    {| location := location s; budget := budget s; bedrooms := bedrooms s;
       bathrooms := bathrooms s; minSizesqft := v;
       amenitiesInput := amenitiesInput s;
       searchResults := searchResults s; loading := loading s;
       error := error s |}).

Definition setAmenitiesInput (v : string) : M State unit :=
  set (fun s =>
    {| location := location s; budget := budget s; bedrooms := bedrooms s;
       bathrooms := bathrooms s; minSizesqft := minSizesqft s;
       amenitiesInput := v; searchResults := searchResults s;
       loading := loading s; error := error s |}).

Definition setSearchResults (v : option JSON) : M State unit :=
  set (fun s =>
    {| location := location s; budget := budget s; bedrooms := bedrooms s;
       bathrooms := bathrooms s; minSizesqft := minSizesqft s;
       amenitiesInput := amenitiesInput s; searchResults := v;
       loading := loading s; error := error s |}).

Definition setLoading (v : bool) : M State unit :=
  set (fun s =>
    {| location := location s; budget := budget s; bedrooms := bedrooms s;
       bathrooms := bathrooms s; minSizesqft := minSizesqft s;
       amenitiesInput := amenitiesInput s;
       searchResults := searchResults s; loading := v; error := error s |}).

Definition setError (v : option string) : M State unit :=
  set (fun s =>
    {| location := location s; budget := budget s; bedrooms := bedrooms s;
       bathrooms := bathrooms s; minSizesqft := minSizesqft s;
       amenitiesInput := amenitiesInput s;
       searchResults := searchResults s; loading := loading s;
       error := v |}).

(** One optional property of the preferences object: present when the
    field is not blank and its number is positive. *)
Definition positive_pref (key value : string) : list (string * JSON) :=
  if JS.truthy (JS.trim value) && (JS.Number value > JS.of_Z 0)%js
  then [(key, JNum (JS.Number value))] else [].

Definition buildPreferences (s : State) : JSON :=
  let prefs :=
    (positive_pref "bedrooms" (bedrooms s)
     ++ positive_pref "bathrooms" (bathrooms s)
     ++ positive_pref "min_size_sqft" (minSizesqft s)
     ++ (if JS.truthy (JS.trim (amenitiesInput s)) then
           let amenities :=
             filter JS.truthy
               (map JS.trim (JS.split "," (amenitiesInput s))) in
           if (0 <? List.length amenities)%nat
           then [("amenities", JArr (map JStr amenities))] else []
         else []))%list in
  if (0 <? List.length prefs)%nat then JObj prefs else JUndefined.

Definition handleSearch (s : State) (net : Fetch.settled JSON)
  : outcome State unit :=
  run
    (if negb (JS.truthy (JS.trim (location s)))
     then setError (Some "Location is required")
     else if negb (JS.truthy (JS.trim (budget s)))
             || (JS.Number (budget s) <= JS.of_Z 0)%js
     then setError (Some "Please enter a valid budget amount")
     else
       let searchRequest :=
         JObj [("location", JStr (JS.trim (location s)));
               ("budget", JNum (JS.Number (budget s)));
               ("preferences", buildPreferences s)] in
       try_catch_finally
         (setLoading true ;;
          setError None ;;
          response <-
            fetch (Fetch.post "http://127.0.0.1:8000/findproperties"
                     searchRequest) net ;;
          check_ok response
            (if (Fetch.status response =? 400)%N
             then "Invalid search parameters"
             else "HTTP error! status: "
                  ++ JS.N_toString (Fetch.status response)) ;;
          result <- json_of response ;;
          setSearchResults (Some result))%handler
         (fun err => setError (Some (message_of err)))
         (setLoading false))
    s.

Definition resetForm (s : State) : outcome State unit :=
  run
    (setLocation "" ;;
     setBudget "" ;;
     setBedrooms "" ;;
     setBathrooms "" ;;
     setMinSizeSquft "" ;;
     setAmenitiesInput "" ;;
     setSearchResults None ;;
     setError None)%handler
    s.

(** The [disabled] attribute of the search button. *)
Definition button_disabled (s : State) : bool :=
  loading s || negb (JS.truthy (JS.trim (location s)))
  || negb (JS.truthy (JS.trim (budget s))).

End SearchProperties.

(** * The prediction panel ([Prediction]) *)

Module Prediction.

Record State : Type := {
  propertyType : string;
  lotArea : string;
  buildingArea : string;
  bedrooms : string;
  bathrooms : string;
  yearBuilt : string;
  hasPool : bool;
  hasGarage : bool;
  schoolRating : string;
  predictionResult : option JSON;
  loading : bool;
  error : option string
}.

Definition initial : State :=
  {| propertyType := "SFH"; lotArea := ""; buildingArea := "";
     bedrooms := ""; bathrooms := ""; yearBuilt := ""; hasPool := false;
     hasGarage := false; schoolRating := ""; predictionResult := None;
     loading := false; error := None |}.

Definition setPropertyType (v : string) : M State unit :=
  set (fun s =>
    {| propertyType := v; lotArea := lotArea s;
       buildingArea := buildingArea s; bedrooms := bedrooms s;
       bathrooms := bathrooms s; yearBuilt := yearBuilt s;
       hasPool := hasPool s; hasGarage := hasGarage s;
       schoolRating := schoolRating s;
       predictionResult := predictionResult s; loading := loading s;
       error := error s |}).

Definition setLotArea (v : string) : M State unit :=
  set (fun s =>
    {| propertyType := propertyType s; lotArea := v;
       buildingArea := buildingArea s; bedrooms := bedrooms s;
       bathrooms := bathrooms s; yearBuilt := yearBuilt s;
       hasPool := hasPool s; hasGarage := hasGarage s;
       schoolRating := schoolRating s;
       predictionResult := predictionResult s; loading := loading s;
       error := error s |}).

Definition setBuildingArea (v : string) : M State unit :=
  set (fun s =>
    {| propertyType := propertyType s; lotArea := lotArea s;
       buildingArea := v; bedrooms := bedrooms s; bathrooms := bathrooms s;
       yearBuilt := yearBuilt s; hasPool := hasPool s;
       hasGarage := hasGarage s; schoolRating := schoolRating s;
       predictionResult := predictionResult s; loading := loading s;
       error := error s |}).

Definition setBedrooms (v : string) : M State unit :=
  set (fun s =>
    {| propertyType := propertyType s; lotArea := lotArea s;
       buildingArea := buildingArea s; bedrooms := v;
       bathrooms := bathrooms s; yearBuilt := yearBuilt s;
       hasPool := hasPool s; hasGarage := hasGarage s;
       schoolRating := schoolRating s;
       predictionResult := predictionResult s; loading := loading s;
       error := error s |}).

Definition setBathrooms (v : string) : M State unit :=
  set (fun s =>
    {| propertyType := propertyType s; lotArea := lotArea s;
       buildingArea := buildingArea s; bedrooms := bedrooms s;
       bathrooms := v; yearBuilt := yearBuilt s; hasPool := hasPool s;
       hasGarage := hasGarage s; schoolRating := schoolRating s;
       predictionResult := predictionResult s; loading := loading s;
       error := error s |}).

Definition setYearBuilt (v : string) : M State unit :=
  set (fun s =>
    {| propertyType := propertyType s; lotArea := lotArea s;
       buildingArea := buildingArea s; bedrooms := bedrooms s;
       bathrooms := bathrooms s; yearBuilt := v; hasPool := hasPool s;
       hasGarage := hasGarage s; schoolRating := schoolRating s;
       predictionResult := predictionResult s; loading := loading s;
       error := error s |}).

Definition setHasPool (v : bool) : M State unit :=
  set (fun s =>
    {| propertyType := propertyType s; lotArea := lotArea s;
       buildingArea := buildingArea s; bedrooms := bedrooms s;
       bathrooms := bathrooms s; yearBuilt := yearBuilt s; hasPool := v;
       hasGarage := hasGarage s; schoolRating := schoolRating s;
       predictionResult := predictionResult s; loading := loading s;
       error := error s |}).

Definition setHasGarage (v : bool) : M State unit :=
  set (fun s =>
    {| propertyType := propertyType s; lotArea := lotArea s;
       buildingArea := buildingArea s; bedrooms := bedrooms s;
       bathrooms := bathrooms s; yearBuilt := yearBuilt s;
       hasPool := hasPool s; hasGarage := v;
       schoolRating := schoolRating s;
       predictionResult := predictionResult s; loading := loading s;
       error := error s |}).

Definition setSchoolRating (v : string) : M State unit :=
  set (fun s =>
    {| propertyType := propertyType s; lotArea := lotArea s;
       buildingArea := buildingArea s; bedrooms := bedrooms s;
       bathrooms := bathrooms s; yearBuilt := yearBuilt s;
       hasPool := hasPool s; hasGarage := hasGarage s; schoolRating := v;
       predictionResult := predictionResult s; loading := loading s;
       error := error s |}).

Definition setPredictionResult (v : option JSON) : M State unit :=
  set (fun s =>
    {| propertyType := propertyType s; lotArea := lotArea s;
       buildingArea := buildingArea s; bedrooms := bedrooms s;
       bathrooms := bathrooms s; yearBuilt := yearBuilt s;
       hasPool := hasPool s; hasGarage := hasGarage s;
       schoolRating := schoolRating s; predictionResult := v;
       loading := loading s; error := error s |}).

Definition setLoading (v : bool) : M State unit :=
  set (fun s =>
    {| propertyType := propertyType s; lotArea := lotArea s;
       buildingArea := buildingArea s; bedrooms := bedrooms s;
       bathrooms := bathrooms s; yearBuilt := yearBuilt s;
       hasPool := hasPool s; hasGarage := hasGarage s;
       schoolRating := schoolRating s;
       predictionResult := predictionResult s; loading := v;
       error := error s |}).

Definition setError (v : option string) : M State unit :=
  set (fun s =>
    {| propertyType := propertyType s; lotArea := lotArea s;
       buildingArea := buildingArea s; bedrooms := bedrooms s;
       bathrooms := bathrooms s; yearBuilt := yearBuilt s;
       hasPool := hasPool s; hasGarage := hasGarage s;
       schoolRating := schoolRating s;
       predictionResult := predictionResult s; loading := loading s;
       error := v |}).

Definition validateField (value : string) (min max : number) : bool :=
  JS.truthy (JS.trim value)
  && negb (JS.isNaN (JS.Number value))
  && (JS.Number value >= min)%js
  && (JS.Number value <= max)%js.

(** [currentYear] is [new Date().getFullYear()]. *)
Definition validateForm (currentYear : N) (s : State) : option string :=
  if String.eqb (propertyType s) "SFH"
     && negb (validateField (lotArea s) (JS.of_Z 1) JS.Infinity)
  then Some "Please enter a valid lot area (greater than 0)"
  else if String.eqb (propertyType s) "Condo"
          && negb (validateField (buildingArea s) (JS.of_Z 1) JS.Infinity)
  then Some "Please enter a valid building area (greater than 0)"
  else if negb (validateField (bedrooms s) (JS.of_Z 0) (JS.of_Z 50))
  then Some "Please enter valid bedrooms (0-50)"
  else if negb (validateField (bathrooms s) (JS.of_Z 0) (JS.of_Z 20))
  then Some "Please enter valid bathrooms (0-20)"
  else if negb (validateField (yearBuilt s) (JS.of_Z 1800)
                  (JS.of_Z (Z.of_N (currentYear + 5))))
  then Some ("Please enter valid year built (1800-"
             ++ JS.N_toString (currentYear + 5) ++ ")")
  else if negb (validateField (schoolRating s) (JS.of_Z 1) (JS.of_Z 10))
  then Some "Please enter valid school rating (1-10)"
  else None.

Definition handlePredict (currentYear : N) (s : State)
    (net : Fetch.settled JSON) : outcome State unit :=
  let validationError := validateForm currentYear s in
  run
    (if JS.truthy_opt validationError then setError validationError
     else
       let predictionRequest :=
         JObj ([("property_type", JStr (propertyType s));
                ("bedrooms", JNum (JS.Number (bedrooms s)));
                ("bathrooms", JNum (JS.Number (bathrooms s)));
                ("year_built", JNum (JS.Number (yearBuilt s)));
                ("has_pool", JBool (hasPool s));
                ("has_garage", JBool (hasGarage s));
                ("school_rating", JNum (JS.Number (schoolRating s)))]
               ++ (if String.eqb (propertyType s) "SFH"
                   then [("lot_area", JNum (JS.Number (lotArea s)))]
                   else [])
               ++ (if String.eqb (propertyType s) "Condo"
                   then [("building_area",
                          JNum (JS.Number (buildingArea s)))]
                   else []))%list in
       try_catch_finally
         (setLoading true ;;
          setError None ;;
          response <-
            fetch (Fetch.post "https://agentmira-backend.onrender.com/predict"
                     predictionRequest) net ;;
          check_ok response
            (if (Fetch.status response =? 400)%N
             then "Invalid request data"
             else "HTTP error! status: "
                  ++ JS.N_toString (Fetch.status response)) ;;
          result <- json_of response ;;
          setPredictionResult (Some result))%handler
         (fun err => setError (Some (message_of err)))
         (setLoading false))
    s.

Definition resetForm (s : State) : outcome State unit :=
  run
    (setPropertyType "SFH" ;;
     setLotArea "" ;;
     setBuildingArea "" ;;
     setBedrooms "" ;;
     setBathrooms "" ;;
     setYearBuilt "" ;;
     setHasPool false ;;
     setHasGarage false ;;
     setSchoolRating "" ;;
     setPredictionResult None ;;
     setError None)%handler
    s.

(** The [onChange] handler of the property type selector. *)
Definition changePropertyType (value : string) (s : State)
  : outcome State unit :=
  run
    (setPropertyType value ;;
     setLotArea "" ;;
     setBuildingArea "")%handler
    s.

(** The [disabled] attribute of the predict button. *)
Definition button_disabled (s : State) : bool := loading s.

End Prediction.

(** * The recommendation panel ([Recommendation]) *)

Module Recommendation.

Record State : Type := {
  userBudget : string;
  userMinBedrooms : string;
  recommendationResult : option JSON;
  loading : bool;
  error : option string
}.

Definition initial : State :=
  {| userBudget := ""; userMinBedrooms := ""; recommendationResult := None;
     loading := false; error := None |}.

Definition setUserBudget (v : string) : M State unit :=
  set (fun s =>
    {| userBudget := v; userMinBedrooms := userMinBedrooms s;
       recommendationResult := recommendationResult s;
       loading := loading s; error := error s |}).

Definition setUserMinBedrooms (v : string) : M State unit :=
  set (fun s =>
    {| userBudget := userBudget s; userMinBedrooms := v;
       recommendationResult := recommendationResult s;
       loading := loading s; error := error s |}).

Definition setRecommendationResult (v : option JSON) : M State unit :=
  set (fun s =>
    {| userBudget := userBudget s; userMinBedrooms := userMinBedrooms s;
       recommendationResult := v; loading := loading s;
       error := error s |}).

Definition setLoading (v : bool) : M State unit :=
  set (fun s =>
    {| userBudget := userBudget s; userMinBedrooms := userMinBedrooms s;
       recommendationResult := recommendationResult s; loading := v;
       error := error s |}).

Definition setError (v : option string) : M State unit :=
  set (fun s =>
    {| userBudget := userBudget s; userMinBedrooms := userMinBedrooms s;
       recommendationResult := recommendationResult s;
       loading := loading s; error := v |}).

Definition validateForm (s : State) : option string :=
  let budget := JS.Number (userBudget s) in
  let bedrooms := JS.Number (userMinBedrooms s) in
  if negb (JS.truthy (JS.trim (userBudget s))) || JS.isNaN budget
     || (budget <= JS.of_Z 0)%js
  then Some "Please enter a valid budget (greater than 0)"
  else if negb (JS.truthy (JS.trim (userMinBedrooms s))) || JS.isNaN bedrooms
          || (bedrooms < JS.of_Z 1)%js
  then Some "Please enter valid minimum bedrooms (1 or greater)"
  else None.

Definition handleRecommendation (s : State) (net : Fetch.settled JSON)
  : outcome State unit :=
  let validationError := validateForm s in
  run
    (if JS.truthy_opt validationError then setError validationError
     else
       try_catch_finally
         (setLoading true ;;
          setError None ;;
          response <-
            fetch (Fetch.post "http://127.0.0.1:8000/recommend"
                     (JObj [("user_budget", JNum (JS.Number (userBudget s)));
                            ("user_min_bedrooms",
                             JNum (JS.Number (userMinBedrooms s)))])) net ;;
          check_ok response
            (if (Fetch.status response =? 400)%N
                || (Fetch.status response =? 404)%N
             then "No properties found for your criteria"
             else "HTTP error! status: "
                  ++ JS.N_toString (Fetch.status response)) ;;
          result <- json_of response ;;
          setRecommendationResult (Some result))%handler
         (fun err => setError (Some (message_of err)))
         (setLoading false))
    s.

Definition resetForm (s : State) : outcome State unit :=
  run
    (setUserBudget "" ;;
     setUserMinBedrooms "" ;;
     setRecommendationResult None ;;
     setError None)%handler
    s.

(** The [disabled] attribute of the recommendation button. *)
Definition button_disabled (s : State) : bool :=
  loading s || negb (JS.truthy (JS.trim (userBudget s)))
  || negb (JS.truthy (JS.trim (userMinBedrooms s))).

End Recommendation.

(** * The listing panel ([Properties]) *)

Module Properties.

Record State : Type := {
  properties : list JSON;
  totalProperties : JSON;
  loading : bool;
  error : option string;
  selectedProperty : option JSON;
  showModal : bool;
  detailsLoading : bool
}.

Definition initial : State :=
  {| properties := []; totalProperties := JNum (JS.of_Z 0); loading := true;
     error := None; selectedProperty := None; showModal := false;
     detailsLoading := false |}.

Definition setProperties (v : list JSON) : M State unit :=
  set (fun s =>
    {| properties := v; totalProperties := totalProperties s;
       loading := loading s; error := error s;
       selectedProperty := selectedProperty s; showModal := showModal s;
       detailsLoading := detailsLoading s |}).

Definition setTotalProperties (v : JSON) : M State unit :=
  set (fun s =>
    {| properties := properties s; totalProperties := v;
       loading := loading s; error := error s;
       selectedProperty := selectedProperty s; showModal := showModal s;
       detailsLoading := detailsLoading s |}).

Definition setLoading (v : bool) : M State unit :=
  set (fun s =>
    {| properties := properties s; totalProperties := totalProperties s;
       loading := v; error := error s;
       selectedProperty := selectedProperty s; showModal := showModal s;
       detailsLoading := detailsLoading s |}).

Definition setError (v : option string) : M State unit :=
  set (fun s =>
    {| properties := properties s; totalProperties := totalProperties s;
       loading := loading s; error := v;
       selectedProperty := selectedProperty s; showModal := showModal s;
       detailsLoading := detailsLoading s |}).

Definition setSelectedProperty (v : option JSON) : M State unit :=
  set (fun s =>
    {| properties := properties s; totalProperties := totalProperties s;
       loading := loading s; error := error s; selectedProperty := v;
       showModal := showModal s; detailsLoading := detailsLoading s |}).

Definition setShowModal (v : bool) : M State unit :=
  set (fun s =>
    {| properties := properties s; totalProperties := totalProperties s;
       loading := loading s; error := error s;
       selectedProperty := selectedProperty s; showModal := v;
       detailsLoading := detailsLoading s |}).

Definition setDetailsLoading (v : bool) : M State unit :=
  set (fun s =>
    {| properties := properties s; totalProperties := totalProperties s;
       loading := loading s; error := error s;
       selectedProperty := selectedProperty s; showModal := showModal s;
       detailsLoading := v |}).

Definition fetchProperties (s : State) (net : Fetch.settled JSON)
  : outcome State unit :=
  run
    (try_catch_finally
       (setLoading true ;;
        setError None ;;
        response <-
          fetch {| Fetch.url := Lit "http://127.0.0.1:8000/properties";
                   Fetch.method := "GET";
                   Fetch.headers := [("Content-Type", "application/json")];
                   Fetch.body := None |} net ;;
        check_ok response
          ("HTTP error! status: " ++ JS.N_toString (Fetch.status response)) ;;
        result <- json_of response ;;
        status <- lift (get_property result "status") ;;
        is_list <-
          (if is_string "success" status then
             items <- lift (get_property result "properties") ;;
             ret (isArray items)
           else ret None) ;;
        match is_list with
        | Some items =>
            setProperties items ;;
            total <- lift (get_property result "total_properties") ;;
            setTotalProperties total
        | None =>
            setProperties [] ;;
            setTotalProperties (JNum (JS.of_Z 0))
        end)%handler
       (fun err =>
          setError (Some ("Failed to fetch properties: " ++ message_of err)))
       (setLoading false))
    s.

Definition fetchPropertyDetails (propertyId : number) (s : State)
    (net : Fetch.settled JSON) : outcome State unit :=
  run
    (try_catch_finally
       (setDetailsLoading true ;;
        response <-
          fetch {| Fetch.url :=
                     Interp "http://127.0.0.1:8000/properties/" propertyId "";
                   Fetch.method := "GET";
                   Fetch.headers := [];
                   Fetch.body := None |} net ;;
        check_ok response
          ("HTTP error! status: " ++ JS.N_toString (Fetch.status response)) ;;
        result <- json_of response ;;
        status <- lift (get_property result "status") ;;
        found <-
          (if is_string "success" status then
             property <- lift (get_property result "property") ;;
             ret (if JSON_truthy property then Some property else None)
           else ret None) ;;
        match found with
        | Some property =>
            setSelectedProperty (Some property) ;;
            setShowModal true
        | None => ret tt
        end)%handler
       (fun err =>
          setError (Some ("Failed to fetch details: " ++ message_of err)))
       (setDetailsLoading false))
    s.


(** What the panel shows for a state: the refresh button, the four
    regions under the header (error, loading, no data, table), the
    buttons of the identifiers, the notice of the details call and the
    modal. *)
Record view : Type := {
  refresh_disabled : bool;
  refresh_label : string;
  error_message : option string;
  loading_message : bool;
  no_data_message : bool;
  table : option (list JSON * JSON);
  id_buttons_disabled : bool;
  details_loading_message : bool;
  modal : option JSON
}.

Definition render (s : State) : view :=
  let shows_error := JS.truthy_opt (error s) in
  {| refresh_disabled := loading s;
     refresh_label := if loading s then "Loading..." else "Refresh";
     error_message := if shows_error then error s else None;
     loading_message := loading s && negb shows_error;
     no_data_message :=
       negb (loading s) && negb shows_error
       && (List.length (properties s) =? 0)%nat;
     table :=
       if negb (loading s) && negb shows_error
          && (0 <? List.length (properties s))%nat
       then Some (properties s, totalProperties s) else None;
     id_buttons_disabled := detailsLoading s;
     details_loading_message := detailsLoading s;
     modal :=
       if showModal s then
         match selectedProperty s with
         | Some property =>
             if JSON_truthy property then Some property else None
         | None => None
         end
       else None |}.

End Properties.

(** * The vocabulary of the specification *)

Import CompareProperties.

Inductive verdict : Type := FirstWins | SecondWins | Tie.

(** The verdict a comparison object stands for, read off its style class
    (the field the tally filters on). *)
Definition verdict_of (c : comparison) : option verdict :=
  if String.eqb (class c) "winner-1" then Some FirstWins
  else if String.eqb (class c) "winner-2" then Some SecondWins
  else if String.eqb (class c) "tie" then Some Tie
  else None.

Definition aggregate_of (o : overall) : option verdict :=
  if String.eqb (winnerClass o) "overall-winner-1" then Some FirstWins
  else if String.eqb (winnerClass o) "overall-winner-2" then Some SecondWins
  else if String.eqb (winnerClass o) "overall-tie" then Some Tie
  else None.

Definition swap_verdict (v : verdict) : verdict :=
  match v with
  | FirstWins => SecondWins
  | SecondWins => FirstWins
  | Tie => Tie
  end.

(** The nine tallied attributes. *)
Inductive attribute : Type :=
| Price | Size | Bedrooms | Bathrooms | SchoolRating | CommuteTime
| YearBuilt | PricePerSqft | AmenityCount.

Definition tallied : list attribute :=
  [Price; Size; Bedrooms; Bathrooms; SchoolRating; CommuteTime;
   YearBuilt; PricePerSqft; AmenityCount].

(** The value compared for each attribute. *)
Definition attribute_value (a : attribute) (p : Property) : number :=
  match a with
  | Price => price p
  | Size => size_sqft p
  | Bedrooms => bedrooms p
  | Bathrooms => bathrooms p
  | SchoolRating => school_rating p
  | CommuteTime => commute_time p
  | YearBuilt => year_built p
  | PricePerSqft => (price p / size_sqft p)%js
  | AmenityCount => JS.length (amenities p)
  end.

(** The comparison object the panel shows for each attribute: a field of
    the analysis, or for the amenities the comparison made in place. *)
Definition attribute_comparison (a : attribute) (p1 p2 : Property)
  : comparison :=
  match a with
  | Price => a_price (getAnalysis p1 p2)
  | Size => a_size (getAnalysis p1 p2)
  | Bedrooms => a_bedrooms (getAnalysis p1 p2)
  | Bathrooms => a_bathrooms (getAnalysis p1 p2)
  | SchoolRating => a_school (getAnalysis p1 p2)
  | CommuteTime => a_commute (getAnalysis p1 p2)
  | YearBuilt => a_year (getAnalysis p1 p2)
  | PricePerSqft => a_value (getAnalysis p1 p2)
  | AmenityCount =>
      getComparison (JS.length (amenities p1)) (JS.length (amenities p2)) true
  end.

(** The polarity of each attribute: the third argument of its call of
    [getComparison] ([true] when omitted). *)
Definition higher_is_better (a : attribute) : bool :=
  match a with
  | Price | CommuteTime | PricePerSqft => false
  | _ => true
  end.

Definition count_verdict (v : verdict) (p1 p2 : Property) : nat :=
  List.length
    (filter (fun a =>
               match verdict_of (attribute_comparison a p1 p2), v with
               | Some FirstWins, FirstWins
               | Some SecondWins, SecondWins
               | Some Tie, Tie => true
               | _, _ => false
               end) tallied).

(** The comparisons of the eight attributes other than price per square
    foot, in the order of the tally. *)
Definition other_comparisons (p1 p2 : Property) : list comparison :=
  map (fun a => attribute_comparison a p1 p2)
      [Price; Size; Bedrooms; Bathrooms; SchoolRating; CommuteTime;
       YearBuilt; AmenityCount].

(** One more in the count of class [c] when [item] is of that class. *)
Definition counted (c : string) (item : comparison) : nat :=
  if String.eqb (class item) c then 1 else 0.

Definition is_infinite (x : number) : bool :=
  match x with S754_infinity _ => true | _ => false end.

(** The validation of [compareProperties]: its three tests, any of which
    ends the handler with an error message. *)
Definition rejected (s : CompareProperties.State) : bool :=
  negb (JS.truthy (compareId1 s)) || negb (JS.truthy (compareId2 s))
  || String.eqb (compareId1 s) (compareId2 s)
  || JS.isNaN (JS.parseInt (compareId1 s))
  || JS.isNaN (JS.parseInt (compareId2 s)).

(** A call settles well when the promise is fulfilled with a response in
    the 200-299 range whose body parses. *)
Definition succeeded {B : Type} (net : Fetch.settled B) : option B :=
  match net with
  | inr response =>
      if Fetch.ok response then
        match Fetch.json response with inr b => Some b | inl _ => None end
      else None
  | inl _ => None
  end.

(** The busy flag is set in the state in which each call is issued, and
    is clear again once a handler that issued a call has finished. *)
Definition busy_while_calling {St : Type} (busy : St -> bool)
    (o : outcome St unit) : Prop :=
  Forall (fun c => busy (fst c) = true) (calls o)
  /\ (calls o <> [] -> busy (final o) = false).

(** A computation keeps the busy flag when it ends with the flag as it
    found it and issues its calls in states with that same flag. *)
Definition keeps_flag {St A : Type} (busy : St -> bool) (m : M St A) : Prop :=
  forall s l,
    busy (final (m s l)) = busy s
    /\ exists issued,
        calls (m s l) = (l ++ issued)%list
        /\ Forall (fun c => busy (fst c) = busy s) issued.

(** The five panels of the dashboard. *)
Inductive panel : Type :=
| ListPanel | ComparePanel | SearchPanel | PredictPanel | RecommendPanel.

Definition panel_state (p : panel) : Type :=
  match p with
  | ListPanel => Properties.State
  | ComparePanel => CompareProperties.State
  | SearchPanel => SearchProperties.State
  | PredictPanel => Prediction.State
  | RecommendPanel => Recommendation.State
  end.

Definition panel_initial (p : panel) : panel_state p :=
  match p with
  | ListPanel => Properties.initial
  | ComparePanel => CompareProperties.initial
  | SearchPanel => SearchProperties.initial
  | PredictPanel => Prediction.initial
  | RecommendPanel => Recommendation.initial
  end.

(** The reset operation of a panel: the [resetForm] of the components
    that define one. *)
Definition panel_reset (p : panel) : option (panel_state p -> panel_state p) :=
  match p with
  | SearchPanel => Some (fun s => final (SearchProperties.resetForm s))
  | PredictPanel => Some (fun s => final (Prediction.resetForm s))
  | RecommendPanel => Some (fun s => final (Recommendation.resetForm s))
  | ListPanel | ComparePanel => None
  end.

(** * Further vocabulary *)

(** The state a computation leaves when run from [s]. *)
Definition after {St A : Type} (m : M St A) (s : St) : St := final (run m s).

(** How a call ends for the handler: with the parsed body, or with the
    message of the failure, which is the message of the thrown value
    when the promise is rejected or the body does not parse, and
    [msg response] when the response is outside the 200-299 range. *)
Definition settlement {B : Type} (msg : Fetch.response B -> string)
    (net : Fetch.settled B) : string + B :=
  match net with
  | inl e => inl (message_of e)
  | inr response =>
      if Fetch.ok response then
        match Fetch.json response with
        | inr b => inr b
        | inl e => inl (message_of e)
        end
      else inl (msg response)
  end.

(** What the call throws at the handler without a response status being
    involved: the rejection of the promise, or the failure to parse the
    body of a response in the 200-299 range. *)
Definition thrown_by {B : Type} (net : Fetch.settled B) : option thrown :=
  match net with
  | inl e => Some e
  | inr response =>
      if Fetch.ok response then
        match Fetch.json response with inl e => Some e | inr _ => None end
      else None
  end.

(** The generic message for a status. *)
Definition http_error (status : N) : string :=
  "HTTP error! status: " ++ JS.N_toString status.

(** A computation that issues no call. *)
Definition silent {St A : Type} (m : M St A) : Prop :=
  forall s l, calls (m s l) = l.

(** A computation that leaves a part of the state as it found it. *)
Definition unchanged {St A T : Type} (part : St -> T) (m : M St A) : Prop :=
  forall s l, part (final (m s l)) = part s.

(** The validation of [handleSearch]: its two tests. *)
Definition search_rejected (s : SearchProperties.State) : bool :=
  negb (JS.truthy (JS.trim (SearchProperties.location s)))
  || (negb (JS.truthy (JS.trim (SearchProperties.budget s)))
      || (JS.Number (SearchProperties.budget s) <= JS.of_Z 0)%js).

(** The range that [validateForm] accepts for each number of the
    prediction request, by the key under which it is sent. *)
Definition prediction_range (year : N) (key : string) : number * number :=
  if String.eqb key "bedrooms" then (JS.of_Z 0, JS.of_Z 50)
  else if String.eqb key "bathrooms" then (JS.of_Z 0, JS.of_Z 20)
  else if String.eqb key "year_built"
  then (JS.of_Z 1800, JS.of_Z (Z.of_N (year + 5)))
  else if String.eqb key "school_rating" then (JS.of_Z 1, JS.of_Z 10)
  else (JS.of_Z 1, JS.Infinity).

(** The response with the two properties exchanged. *)
Definition swap_response (r : ComparisonResponse) : ComparisonResponse :=
  {| status := status r; property1 := property2 r; property2 := property1 r;
     comparison_summary := comparison_summary r |}.

(** A record none of whose nine compared values is not-a-number. *)
Definition comparable (p : Property) : Prop :=
  forall a : attribute, JS.isNaN (attribute_value a p) = false.



(** * The shell ([Dashboard]) *)

Module Dashboard.

(** The entries of the sidebar, in their order. *)
Inductive entry : Type :=
| PropertiesEntry | CompareEntry | SearchEntry | PredictionEntry
| RecommendationEntry.

Definition entries : list entry :=
  [PropertiesEntry; CompareEntry; SearchEntry; PredictionEntry;
   RecommendationEntry].

(** The target of the link of an entry. *)
Definition link (e : entry) : string :=
  match e with
  | PropertiesEntry => "/properties"
  | CompareEntry => "/compare"
  | SearchEntry => "/search"
  | PredictionEntry => "/prediction"
  | RecommendationEntry => "/recommendation"
  end.

(** The [className] of an entry for [location.pathname]. *)
Definition className (pathname : string) (e : entry) : string :=
  match e with
  | PropertiesEntry =>
      if String.eqb pathname "/" || String.eqb pathname "/properties"
      then "active" else ""
  | CompareEntry => if String.eqb pathname "/compare" then "active" else ""
  | SearchEntry => if String.eqb pathname "/search" then "active" else ""
  | PredictionEntry =>
      if String.eqb pathname "/prediction" then "active" else ""
  | RecommendationEntry =>
      if String.eqb pathname "/recommendation" then "active" else ""
  end.

(** The [Route] elements: path and panel rendered. *)
Definition routes : list (string * panel) :=
  [("/", ListPanel); ("/properties", ListPanel);
   ("/compare", ComparePanel); ("/search", SearchPanel);
   ("/prediction", PredictPanel); ("/recommendation", RecommendPanel)].

End Dashboard.

(** * Sample data *)

Module Samples.

Definition num (z : Z) : number := JS.of_Z z.

(** A property of the given identifier, price and size; the other
    fields are the same for all of them. *)
Definition house (ident price size : Z) : Property :=
  {| _id := "65f0"; id := num ident; title := "Family home";
     location := "Austin"; price := num price; bedrooms := num 3;
     bathrooms := num 2; size_sqft := num size;
     amenities := ["garden"; "gym"]; school_rating := num 4;
     commute_time := num 30; has_garage := true; has_garden := true;
     has_pool := false; year_built := num 2010 |}.

Definition summary : ComparisonSummary :=
  {| price_difference := num (-20000); bedrooms_difference := num 0;
     bathrooms_difference := num 0; size_difference := num 100;
     comparison_notes :=
       {| larger_property := num 1; more_expensive := num 2;
          more_bedrooms := num 1; more_bathrooms := num 1 |} |}.

Definition response_of (p1 p2 : Property) : ComparisonResponse :=
  {| status := "success"; property1 := p1; property2 := p2;
     comparison_summary := summary |}.

(** The two properties of the example of the specification. *)
Definition propertyA : Property := house 1 300000 1500.
Definition propertyB : Property := house 2 320000 1400.

(** A record whose size is zero, and one whose price is zero too. *)
Definition no_size : Property := house 1 300000 0.
Definition no_price_no_size : Property := house 1 0 0.

(** The state of the compare panel once the comparison of the two
    properties is stored. *)
Definition compared : CompareProperties.State :=
  {| compareId1 := "1"; compareId2 := "2";
     comparisonResult := Some (response_of propertyA propertyB);
     compareLoading := false; error := None |}.

(** The first identifier entered with a leading zero. *)
Definition same_id_twice : CompareProperties.State :=
  {| compareId1 := "01"; compareId2 := "1"; comparisonResult := None;
     compareLoading := false; error := None |}.

Definition not_found : Fetch.settled ComparisonResponse :=
  inr {| Fetch.status := 404;
         Fetch.json := inl (ErrorObject "Unexpected end of JSON input") |}.

Definition error_500 : Fetch.response ComparisonResponse :=
  {| Fetch.status := 500;
     Fetch.json := inl (ErrorObject "Unexpected end of JSON input") |}.

Definition server_error : Fetch.settled ComparisonResponse := inr error_500.

Definition found : Fetch.settled ComparisonResponse :=
  inr {| Fetch.status := 200;
         Fetch.json := inr (response_of propertyA propertyB) |}.

(** A search panel reset while its request is still awaited. *)
Definition searching : SearchProperties.State :=
  {| SearchProperties.location := "Austin";
     SearchProperties.budget := "500000";
     SearchProperties.bedrooms := ""; SearchProperties.bathrooms := "";
     SearchProperties.minSizesqft := "";
     SearchProperties.amenitiesInput := "";
     SearchProperties.searchResults := None;
     SearchProperties.loading := true;
     SearchProperties.error := None |}.

(** A filled prediction form. *)
Definition prediction_form : Prediction.State :=
  {| Prediction.propertyType := "SFH"; Prediction.lotArea := "5000";
     Prediction.buildingArea := ""; Prediction.bedrooms := "3";
     Prediction.bathrooms := "2"; Prediction.yearBuilt := "2015";
     Prediction.hasPool := false; Prediction.hasGarage := true;
     Prediction.schoolRating := "8"; Prediction.predictionResult := None;
     Prediction.loading := false; Prediction.error := None |}.

(** A filled search form and a filled recommendation form. *)
Definition search_form : SearchProperties.State :=
  {| SearchProperties.location := " Austin ";
     SearchProperties.budget := "500000";
     SearchProperties.bedrooms := "3"; SearchProperties.bathrooms := "";
     SearchProperties.minSizesqft := "0";
     SearchProperties.amenitiesInput := "gym, ,pool";
     SearchProperties.searchResults := None;
     SearchProperties.loading := false;
     SearchProperties.error := None |}.

Definition recommendation_form : Recommendation.State :=
  {| Recommendation.userBudget := "450000";
     Recommendation.userMinBedrooms := "2";
     Recommendation.recommendationResult := None;
     Recommendation.loading := false; Recommendation.error := None |}.

(** A listing of two properties and the details of one of them. *)
Definition listing : JSON :=
  JObj [("status", JStr "success"); ("total_properties", JNum (num 2));
        ("properties",
         JArr [JObj [("id", JNum (num 1)); ("title", JStr "Family home")];
               JObj [("id", JNum (num 2)); ("title", JStr "Loft")]])].

Definition details : JSON :=
  JObj [("status", JStr "success");
        ("property", JObj [("id", JNum (num 1)); ("bedrooms", JNum (num 3))])].

Definition answered (body : JSON) : Fetch.settled JSON :=
  inr {| Fetch.status := 200; Fetch.json := inr body |}.

Definition unavailable : Fetch.settled JSON :=
  inr {| Fetch.status := 503;
         Fetch.json := inl (ErrorObject "Unexpected token") |}.

Definition offline {B : Type} : Fetch.settled B :=
  inl (ErrorObject "Failed to fetch").

(** The listing panel once the listing is shown. *)
Definition listed : Properties.State :=
  final (Properties.fetchProperties Properties.initial (answered listing)).

(** A record that beats [propertyB] on price, size, bedrooms, school
    rating and price per square foot. *)
Definition better : Property :=
  {| _id := "65f1"; id := num 3; title := "Corner house";
     location := "Austin"; price := num 250000; bedrooms := num 4;
     bathrooms := num 2; size_sqft := num 1600;
     amenities := ["garden"; "gym"]; school_rating := num 5;
     commute_time := num 30; has_garage := true; has_garden := true;
     has_pool := false; year_built := num 2010 |}.

(** The compare panel with a stored comparison and the same identifier
    entered twice. *)
Definition compared_same : CompareProperties.State :=
  {| compareId1 := "2"; compareId2 := "2";
     comparisonResult := Some (response_of propertyA propertyB);
     compareLoading := false; error := None |}.

(** A response with no body to parse. *)
Definition status_only (status : N) : Fetch.response JSON :=
  {| Fetch.status := status;
     Fetch.json := inl (ErrorObject "Unexpected end of JSON input") |}.

(** The request of the filled prediction form. *)
Definition prediction_request : Fetch.request :=
  Fetch.post "https://agentmira-backend.onrender.com/predict"
    (JObj [("property_type", JStr "SFH");
           ("bedrooms", JNum (JS.Number "3"));
           ("bathrooms", JNum (JS.Number "2"));
           ("year_built", JNum (JS.Number "2015"));
           ("has_pool", JBool false); ("has_garage", JBool true);
           ("school_rating", JNum (JS.Number "8"));
           ("lot_area", JNum (JS.Number "5000"))]).

End Samples.

(** * Properties of the comparison engine *)

Section Order.

(** The order of two numbers is reversed when they are exchanged; two
    numbers one of which is not-a-number are not ordered either way. *)
Lemma SFcompare_swap (x y : number) :
  SFcompare y x = option_map CompOpp (SFcompare x y).
Proof.
  destruct x as [sx|sx| |sx mx ex], y as [sy|sy| |sy my ey]; simpl;
    try reflexivity;
    try (destruct sx; reflexivity);
    try (destruct sy; reflexivity);
    try (destruct sx, sy; reflexivity).
  assert (Hm : Pos.compare_cont Eq my mx
               = CompOpp (Pos.compare_cont Eq mx my))
    by (symmetry; apply (Pos.compare_cont_antisym mx my Eq)).
  rewrite (Z.compare_antisym ex ey), Hm.
  destruct sx, sy, (ex ?= ey)%Z, (Pos.compare_cont Eq mx my);
    reflexivity.
Qed.

Lemma SFcompare_not_NaN (x y : number) :
  JS.isNaN x = false -> JS.isNaN y = false -> SFcompare x y <> None.
Proof.
  destruct x as [sx|sx| |sx mx ex], y as [sy|sy| |sy my ey]; simpl;
    intros; try discriminate.
Qed.

(** The verdict of [getComparison], read off the order of its two
    arguments; an unordered pair goes to the second side. *)
Lemma getComparison_by_order (v1 v2 : number) (h : bool) :
  verdict_of (getComparison v1 v2 h) =
  Some match SFcompare v1 v2 with
       | Some Eq => Tie
       | Some Gt => if h then FirstWins else SecondWins
       | Some Lt => if h then SecondWins else FirstWins
       | None => SecondWins
       end.
Proof.
  unfold getComparison, JS.strict_eq, JS.gt, JS.lt, SFeqb, SFltb.
  rewrite (SFcompare_swap v1 v2).
  destruct (SFcompare v1 v2) as [[ | | ]|], h; reflexivity.
Qed.

End Order.

Lemma getComparison_class (v1 v2 : number) (h : bool) :
  In (class (getComparison v1 v2 h)) ["winner-1"; "winner-2"; "tie"].
Proof.
  unfold getComparison.
  destruct (v1 === v2)%js; [simpl; tauto|].
  destruct (if h then (v1 > v2)%js else (v1 < v2)%js); simpl; tauto.
Qed.

Lemma attribute_comparison_eq (a : attribute) (p1 p2 : Property) :
  attribute_comparison a p1 p2 =
  getComparison (attribute_value a p1) (attribute_value a p2)
                (higher_is_better a).
Proof. destruct a; reflexivity. Qed.

(** The comparisons that [renderOverallWinner] tallies are those of the
    nine attributes, in the order of [tallied]. *)
Lemma allComparisons_eq (r : ComparisonResponse) :
  (Object_values (getAnalysis (property1 r) (property2 r))
   ++ [getComparison (JS.length (amenities (property1 r)))
                     (JS.length (amenities (property2 r))) true])%list
  = map (fun a => attribute_comparison a (property1 r) (property2 r)) tallied.
Proof. reflexivity. Qed.

Lemma length_filter_map {A B : Type} (f : A -> B) (g : B -> bool)
    (l : list A) :
  List.length (filter g (map f l))
  = List.length (filter (fun a => g (f a)) l).
Proof.
  induction l as [|a l IH]; simpl; [reflexivity|].
  destruct (g (f a)); simpl; now rewrite IH.
Qed.

Lemma class_verdict (c : comparison) :
  String.eqb (class c) "winner-1"
  = match verdict_of c with Some FirstWins => true | _ => false end
  /\ String.eqb (class c) "winner-2"
     = match verdict_of c with Some SecondWins => true | _ => false end
  /\ String.eqb (class c) "tie"
     = match verdict_of c with Some Tie => true | _ => false end.
Proof.
  unfold verdict_of.
  destruct (String.eqb_spec (class c) "winner-1") as [->|_];
    [repeat split|].
  destruct (String.eqb_spec (class c) "winner-2") as [->|_];
    [repeat split|].
  destruct (String.eqb (class c) "tie"); repeat split.
Qed.

Lemma count_class_verdict (p1 p2 : Property) :
  let items := map (fun a => attribute_comparison a p1 p2) tallied in
  count_class "winner-1" items = count_verdict FirstWins p1 p2
  /\ count_class "winner-2" items = count_verdict SecondWins p1 p2
  /\ count_class "tie" items = count_verdict Tie p1 p2.
Proof.
  unfold count_class, count_verdict; cbv zeta.
  rewrite !length_filter_map.
  repeat split; f_equal; apply filter_ext; intros a;
    destruct (class_verdict (attribute_comparison a p1 p2)) as (E1 & E2 & E3);
    rewrite ?E1, ?E2, ?E3;
    destruct (verdict_of (attribute_comparison a p1 p2)) as [[ | | ]|];
    reflexivity.
Qed.

(** Items whose class is one of the three are each counted once. *)
Lemma count_class_total (items : list comparison) :
  Forall (fun c => In (class c) ["winner-1"; "winner-2"; "tie"]) items ->
  count_class "winner-1" items + count_class "winner-2" items
  + count_class "tie" items = List.length items.
Proof.
  unfold count_class.
  induction 1 as [|c items Hc _ IH]; [reflexivity|].
  simpl filter; simpl List.length.
  destruct Hc as [<-|[<-|[<-|[]]]]; simpl; lia.
Qed.

Lemma tallied_classes (p1 p2 : Property) :
  Forall (fun c => In (class c) ["winner-1"; "winner-2"; "tie"])
         (map (fun a => attribute_comparison a p1 p2) tallied).
Proof.
  apply Forall_forall; intros c Hc.
  apply in_map_iff in Hc as (a & <- & _).
  rewrite attribute_comparison_eq. apply getComparison_class.
Qed.

(** The score breakdown of [renderOverallWinner] and its badge. *)
Lemma renderComparisonResults_counts (r : ComparisonResponse) :
  let items :=
    map (fun a => attribute_comparison a (property1 r) (property2 r))
        tallied in
  let o := renderComparisonResults r in
  property1Wins o = count_class "winner-1" items
  /\ property2Wins o = count_class "winner-2" items
  /\ ties o = count_class "tie" items
  /\ winnerClass o =
     if (property2Wins o <? property1Wins o)%nat then "overall-winner-1"
     else if (property1Wins o <? property2Wins o)%nat then "overall-winner-2"
     else "overall-tie".
Proof.
  cbv zeta.
  unfold renderComparisonResults, renderOverallWinner; cbv zeta.
  rewrite allComparisons_eq.
  set (items := map _ tallied).
  set (n1 := count_class "winner-1" items).
  set (n2 := count_class "winner-2" items).
  destruct (n2 <? n1)%nat eqn:E1; simpl; [rewrite E1; tauto|].
  destruct (n1 <? n2)%nat eqn:E2; simpl; rewrite E1, E2; tauto.
Qed.

(** C1. For every tallied attribute the comparison shown is
    [getComparison] on the two values with the attribute's polarity, and
    for every pair of values: equal values give Tie; a greater first
    value gives FirstWins on a higher-is-better attribute and SecondWins
    on a lower-is-better one; a smaller first value gives the opposite. *)
Theorem verdict_follows_polarity (a : attribute) :
  (forall p1 p2 : Property,
      attribute_comparison a p1 p2 =
      getComparison (attribute_value a p1) (attribute_value a p2)
                    (higher_is_better a))
  /\ forall v1 v2 : number,
      let v := verdict_of (getComparison v1 v2 (higher_is_better a)) in
      ((v1 === v2)%js = true -> v = Some Tie)
      /\ ((v1 > v2)%js = true ->
          v = Some (if higher_is_better a then FirstWins else SecondWins))
      /\ ((v1 < v2)%js = true ->
          v = Some (if higher_is_better a then SecondWins else FirstWins)).
Proof.
  split; [apply attribute_comparison_eq|].
  intros v1 v2 v; subst v.
  rewrite getComparison_by_order.
  unfold JS.strict_eq, JS.gt, JS.lt, SFeqb, SFltb.
  rewrite (SFcompare_swap v1 v2).
  destruct (SFcompare v1 v2) as [[ | | ]|]; simpl;
    repeat split; intros; try discriminate; reflexivity.
Qed.

(** C1 at the example of the specification: 300000 for 1500 square feet
    against 320000 for 1400 is the lower price per square foot. *)
Lemma verdict_follows_polarity_witness :
  verdict_of
    (attribute_comparison PricePerSqft Samples.propertyA Samples.propertyB)
  = Some FirstWins.
Proof.
  destruct (verdict_follows_polarity PricePerSqft) as [Hcmp Hval].
  rewrite Hcmp.
  apply (proj2 (proj2 (Hval _ _))).
  vm_compute. reflexivity.
Defined.

(** C10, the claim as stated fails: not-a-number, here the quotient of
    zero by zero, loses on either side. *)
Lemma swap_fails_on_NaN :
  let x := (JS.of_Z 0 / JS.of_Z 0)%js in
  verdict_of (getComparison x (JS.of_Z 1) true) = Some SecondWins
  /\ verdict_of (getComparison (JS.of_Z 1) x true)
     <> option_map swap_verdict (verdict_of (getComparison x (JS.of_Z 1) true)).
Proof. vm_compute. split; [reflexivity|discriminate]. Qed.

(** C10, amended. For all values neither of which is not-a-number and
    every polarity, exchanging the two arguments of [getComparison]
    exchanges FirstWins and SecondWins and keeps Tie. *)
Theorem getComparison_swap (v1 v2 : number) (h : bool) :
  JS.isNaN v1 = false -> JS.isNaN v2 = false ->
  verdict_of (getComparison v2 v1 h)
  = option_map swap_verdict (verdict_of (getComparison v1 v2 h)).
Proof.
  intros H1 H2.
  rewrite !getComparison_by_order, (SFcompare_swap v1 v2).
  pose proof (SFcompare_not_NaN v1 v2 H1 H2) as Hord.
  destruct (SFcompare v1 v2) as [[ | | ]|], h; simpl;
    try reflexivity; contradiction.
Qed.

Lemma getComparison_swap_witness :
  verdict_of (getComparison (JS.of_Z 1400) (JS.of_Z 1500) true)
  = option_map swap_verdict
      (verdict_of (getComparison (JS.of_Z 1500) (JS.of_Z 1400) true)).
Proof. apply getComparison_swap; reflexivity. Defined.

(** C2. The score breakdown reports, for the nine tallied attributes,
    the number of FirstWins, of SecondWins and of Tie verdicts; the
    aggregate verdict is the side with strictly more wins, and Tie
    exactly when the two win counts are equal, whatever the number of
    ties. *)
Theorem aggregate_is_majority_of_wins (r : ComparisonResponse) :
  let o := renderComparisonResults r in
  List.length tallied = 9
  /\ property1Wins o = count_verdict FirstWins (property1 r) (property2 r)
  /\ property2Wins o = count_verdict SecondWins (property1 r) (property2 r)
  /\ ties o = count_verdict Tie (property1 r) (property2 r)
  /\ (aggregate_of o = Some FirstWins <-> property2Wins o < property1Wins o)
  /\ (aggregate_of o = Some SecondWins <-> property1Wins o < property2Wins o)
  /\ (aggregate_of o = Some Tie <-> property1Wins o = property2Wins o).
Proof.
  cbv zeta.
  destruct (renderComparisonResults_counts r) as (E1 & E2 & E3 & Ec).
  destruct (count_class_verdict (property1 r) (property2 r)) as (V1 & V2 & V3).
  split; [reflexivity|].
  rewrite <- V1, <- V2, <- V3.
  split; [assumption|]. split; [assumption|]. split; [assumption|].
  unfold aggregate_of. rewrite Ec.
  destruct (Nat.ltb_spec (property2Wins (renderComparisonResults r))
                         (property1Wins (renderComparisonResults r)));
    [simpl; repeat split; intros; try discriminate; try lia|].
  destruct (Nat.ltb_spec (property1Wins (renderComparisonResults r))
                         (property2Wins (renderComparisonResults r)));
    simpl; repeat split; intros; try discriminate; try lia.
Qed.

(** The three counts always add up to the nine comparisons. *)
Lemma tally_total (r : ComparisonResponse) :
  let o := renderComparisonResults r in
  property1Wins o + property2Wins o + ties o = 9.
Proof.
  cbv zeta.
  destruct (renderComparisonResults_counts r) as (-> & -> & -> & _).
  rewrite count_class_total by apply tallied_classes.
  reflexivity.
Qed.

(** C9. When both sizes are nonzero, the wins of the first property, the
    wins of the second and the ties add up to 9. *)
Theorem tally_sums_to_nine (r : ComparisonResponse) :
  JS.is_zero (size_sqft (property1 r)) = false ->
  JS.is_zero (size_sqft (property2 r)) = false ->
  let o := renderComparisonResults r in
  property1Wins o + property2Wins o + ties o = 9.
Proof. intros _ _. apply tally_total. Qed.

Lemma tally_sums_to_nine_witness :
  let o :=
    renderComparisonResults
      (Samples.response_of Samples.propertyA Samples.propertyB) in
  property1Wins o + property2Wins o + ties o = 9.
Proof. apply tally_sums_to_nine; reflexivity. Defined.

Lemma count_class_app (c : string) (l1 l2 : list comparison) :
  count_class c (l1 ++ l2) = count_class c l1 + count_class c l2.
Proof. unfold count_class. now rewrite filter_app, length_app. Qed.

(** The tally is that of the eight other comparisons, with the
    comparison of the prices per square foot counted on top. *)
Lemma value_is_tallied (c : string) (p1 p2 : Property) :
  count_class c (map (fun a => attribute_comparison a p1 p2) tallied)
  = count_class c (other_comparisons p1 p2)
    + counted c (attribute_comparison PricePerSqft p1 p2).
Proof.
  change (map (fun a => attribute_comparison a p1 p2) tallied)
    with (map (fun a => attribute_comparison a p1 p2)
              [Price; Size; Bedrooms; Bathrooms; SchoolRating; CommuteTime;
               YearBuilt]
          ++ [attribute_comparison PricePerSqft p1 p2]
          ++ [attribute_comparison AmenityCount p1 p2])%list.
  change (other_comparisons p1 p2)
    with (map (fun a => attribute_comparison a p1 p2)
              [Price; Size; Bedrooms; Bathrooms; SchoolRating; CommuteTime;
               YearBuilt]
          ++ [attribute_comparison AmenityCount p1 p2])%list.
  rewrite !count_class_app.
  assert (Hone : forall x, count_class c [x] = counted c x).
  { intros x. unfold count_class, counted. simpl.
    destruct (String.eqb (class x) c); reflexivity. }
  rewrite !Hone. lia.
Qed.

(** A quotient by zero is an infinity or not-a-number. *)
Lemma div_by_zero (x y : number) :
  JS.is_zero y = true ->
  JS.isNaN (x / y)%js || is_infinite (x / y)%js = true.
Proof. destruct x, y; simpl; intros; try discriminate; reflexivity. Qed.

(** C3, the claim as stated fails: with a size of zero the price per
    square foot is infinite, the comparison is made all the same and
    goes to the second property, and the tally counts nine comparisons,
    one more than the eight others. *)
Lemma zero_size_is_tallied :
  let p1 := Samples.no_size in
  let p2 := Samples.propertyB in
  let o := renderComparisonResults (Samples.response_of p1 p2) in
  JS.is_zero (size_sqft p1) = true
  /\ (price p1 / size_sqft p1)%js = JS.Infinity
  /\ verdict_of (attribute_comparison PricePerSqft p1 p2) = Some SecondWins
  /\ property1Wins o + property2Wins o + ties o = 9
  /\ (property1Wins o, property2Wins o, ties o)
     <> (count_class "winner-1" (other_comparisons p1 p2),
         count_class "winner-2" (other_comparisons p1 p2),
         count_class "tie" (other_comparisons p1 p2)).
Proof. vm_compute. repeat split; discriminate. Qed.

(** Two records that agree on every field, with a price and a size of
    zero: the quotient is not-a-number on both sides, and the second
    property is declared the overall winner. *)
Example NaN_reaches_the_verdict :
  let p := Samples.no_price_no_size in
  let o := renderComparisonResults (Samples.response_of p p) in
  JS.isNaN (price p / size_sqft p)%js = true
  /\ (property1Wins o, property2Wins o, ties o) = (0, 1, 8)
  /\ aggregate_of o = Some SecondWins.
Proof. vm_compute. repeat split. Qed.

(** C3, amended. When a size is zero the comparison of the prices per
    square foot is not skipped: the quotient by the zero size is an
    infinity or not-a-number, the two quotients go to [getComparison]
    unguarded, and the verdict is counted in the tally on top of the
    eight other comparisons, so that the counts still add up to 9. *)
Theorem zero_size_value_comparison (r : ComparisonResponse) :
  let p1 := property1 r in
  let p2 := property2 r in
  let q1 := (price p1 / size_sqft p1)%js in
  let q2 := (price p2 / size_sqft p2)%js in
  let v := attribute_comparison PricePerSqft p1 p2 in
  let o := renderComparisonResults r in
  JS.is_zero (size_sqft p1) || JS.is_zero (size_sqft p2) = true ->
  (JS.isNaN q1 || is_infinite q1 = true \/ JS.isNaN q2 || is_infinite q2 = true)
  /\ v = getComparison q1 q2 false
  /\ property1Wins o
     = count_class "winner-1" (other_comparisons p1 p2) + counted "winner-1" v
  /\ property2Wins o
     = count_class "winner-2" (other_comparisons p1 p2) + counted "winner-2" v
  /\ ties o = count_class "tie" (other_comparisons p1 p2) + counted "tie" v
  /\ property1Wins o + property2Wins o + ties o = 9.
Proof.
  cbv zeta. intros Hz.
  split.
  { apply orb_true_iff in Hz as [Hz|Hz]; [left|right];
      now apply div_by_zero. }
  split; [reflexivity|].
  destruct (renderComparisonResults_counts r) as (E1 & E2 & E3 & _).
  rewrite E1, E2, E3, !value_is_tallied.
  repeat split.
  rewrite <- !value_is_tallied, <- E1, <- E2, <- E3.
  apply tally_total.
Qed.

Lemma zero_size_value_comparison_witness :
  let o :=
    renderComparisonResults
      (Samples.response_of Samples.no_size Samples.propertyB) in
  property2Wins o
  = count_class "winner-2"
      (other_comparisons Samples.no_size Samples.propertyB)
    + counted "winner-2"
        (attribute_comparison PricePerSqft Samples.no_size Samples.propertyB).
Proof.
  apply (zero_size_value_comparison
           (Samples.response_of Samples.no_size Samples.propertyB)).
  reflexivity.
Defined.

(** * Properties of the panels *)

(** ** The equations of the handler operations *)

Section HandlerEquations.

Context {St A B : Type}.
Variables (s : St) (l : list (call St)).

Lemma bind_ret (a : A) (k : A -> M St B) : bind (ret a) k s l = k a s l.
Proof. reflexivity. Qed.

Lemma bind_throw (e : thrown) (k : A -> M St B) :
  bind (throw e) k s l = {| final := s; calls := l; result := inl e |}.
Proof. reflexivity. Qed.

Lemma bind_set (f : St -> St) (k : unit -> M St B) :
  bind (set f) k s l = k tt (f s) l.
Proof. reflexivity. Qed.

Lemma bind_lift (r : thrown + A) (k : A -> M St B) :
  bind (lift r) k s l =
  match r with
  | inr a => k a s l
  | inl e => {| final := s; calls := l; result := inl e |}
  end.
Proof. reflexivity. Qed.

Lemma bind_fetch (req : Fetch.request) (net : Fetch.settled A)
    (k : Fetch.response A -> M St B) :
  bind (fetch req net) k s l =
  match net with
  | inr response => k response s (l ++ [(s, req)])%list
  | inl e =>
      {| final := s; calls := (l ++ [(s, req)])%list; result := inl e |}
  end.
Proof. reflexivity. Qed.

Lemma bind_check_ok (response : Fetch.response A) (errorMsg : string)
    (k : unit -> M St B) :
  bind (check_ok response errorMsg) k s l =
  if Fetch.ok response then k tt s l
  else {| final := s; calls := l; result := inl (ErrorObject errorMsg) |}.
Proof. unfold check_ok. destruct (Fetch.ok response); reflexivity. Qed.

Lemma bind_json_of (response : Fetch.response A) (k : A -> M St B) :
  bind (json_of response) k s l =
  match Fetch.json response with
  | inr a => k a s l
  | inl e => {| final := s; calls := l; result := inl e |}
  end.
Proof. reflexivity. Qed.

Lemma bind_if (c : bool) (m1 m2 : M St A) (k : A -> M St B) :
  bind (if c then m1 else m2) k s l =
  if c then bind m1 k s l else bind m2 k s l.
Proof. destruct c; reflexivity. Qed.

Lemma bind_bind {C : Type} (m : M St A) (f : A -> M St B)
    (k : B -> M St C) :
  bind (bind m f) k s l = bind m (fun a => bind (f a) k) s l.
Proof.
  unfold bind. destruct (result (m s l)); reflexivity.
Qed.

(** A [try] statement whose [finally] block is one state setter. *)
Lemma try_catch_finally_set (body : M St A) (handler : thrown -> M St A)
    (g : St -> St) :
  try_catch_finally body handler (set g) s l =
  match result (body s l) with
  | inr a =>
      {| final := g (final (body s l)); calls := calls (body s l);
         result := inr a |}
  | inl e =>
      let o := handler e (final (body s l)) (calls (body s l)) in
      {| final := g (final o); calls := calls o; result := result o |}
  end.
Proof.
  unfold try_catch_finally, set; cbn.
  destruct (result (body s l)) eqn:E; cbn; [reflexivity|].
  now rewrite E.
Qed.

End HandlerEquations.

(** The state setters of the panels, as functions on the state. *)
Ltac unfold_setters :=
  unfold run,
    CompareProperties.setError, CompareProperties.setCompareLoading,
    CompareProperties.setComparisonResult,
    SearchProperties.setError, SearchProperties.setLoading,
    SearchProperties.setSearchResults,
    Prediction.setError, Prediction.setLoading,
    Prediction.setPredictionResult,
    Recommendation.setError, Recommendation.setLoading,
    Recommendation.setRecommendationResult,
    Properties.setError, Properties.setLoading, Properties.setProperties,
    Properties.setTotalProperties, Properties.setSelectedProperty,
    Properties.setShowModal, Properties.setDetailsLoading.

(** One step of a handler. *)
Ltac step :=
  first [ rewrite bind_set | rewrite bind_ret | rewrite bind_throw
        | rewrite bind_check_ok | rewrite bind_json_of | rewrite bind_lift
        | rewrite bind_fetch | rewrite bind_bind | rewrite bind_if ];
  cbv beta.

(** Runs a handler that is a [try] statement around one call, splitting
    on how the call settles: rejected, answered outside or inside the
    200-299 range, and with a body that parses or not. *)
Ltac settle net :=
  let e := fresh "e" in
  let response := fresh "response" in
  let b := fresh "b" in
  let Hok := fresh "Hok" in
  let Hjson := fresh "Hjson" in
  unfold_setters;
  rewrite try_catch_finally_set;
  try match goal with
      | |- context [fetch ?r net] =>
          let req := fresh "req" in set (req := r)
      end;
  repeat step;
  destruct net as [e|response];
  [ | repeat step;
      destruct (Fetch.ok response) eqn:Hok;
      [ repeat step;
        destruct (Fetch.json response) as [e|b] eqn:Hjson;
        repeat step
      | ] ];
  cbn [final calls result app set ret].

Section ComparePanel.

Variable s : CompareProperties.State.
Variable net : Fetch.settled ComparisonResponse.

Lemma compare_rejected :
  rejected s = true ->
  calls (compareProperties s net) = []
  /\ exists msg, error (final (compareProperties s net)) = Some msg.
Proof.
  unfold rejected, compareProperties.
  destruct (negb (JS.truthy (compareId1 s)) || negb (JS.truthy (compareId2 s)));
    [intros _; split; [reflexivity|eexists; reflexivity]|].
  destruct (String.eqb (compareId1 s) (compareId2 s));
    [intros _; split; [reflexivity|eexists; reflexivity]|].
  cbn [orb].
  destruct (JS.isNaN (JS.parseInt (compareId1 s))
            || JS.isNaN (JS.parseInt (compareId2 s)));
    [intros _; split; [reflexivity|eexists; reflexivity]|discriminate].
Qed.

Lemma compare_issued :
  calls (compareProperties s net) <> [] -> rejected s = false.
Proof.
  intros Hc. destruct (rejected s) eqn:E; [|reflexivity].
  destruct (compare_rejected E) as [H _]. contradiction.
Qed.

(** Past the validation, the handler is its [try] statement. *)
Lemma compare_accepted :
  rejected s = false ->
  compareProperties s net =
  run
    (try_catch_finally
       (setCompareLoading true ;;
        setError None ;;
        response <-
          fetch (Fetch.post "http://127.0.0.1:8000/comparebyid"
                   (JObj [("id1", JNum (JS.parseInt (compareId1 s)));
                          ("id2", JNum (JS.parseInt (compareId2 s)))]))
                net ;;
        check_ok response
          (if (Fetch.status response =? 404)%N
           then "Property ID not found"
           else "HTTP error! status: "
                ++ JS.N_toString (Fetch.status response)) ;;
        result <- json_of response ;;
        setComparisonResult (Some result))%handler
       (fun err => setError (Some (message_of err)))
       (setCompareLoading false))
    s.
Proof.
  unfold rejected, compareProperties.
  destruct (negb (JS.truthy (compareId1 s)) || negb (JS.truthy (compareId2 s)));
    [discriminate|].
  destruct (String.eqb (compareId1 s) (compareId2 s)); [discriminate|].
  cbn [orb].
  destruct (JS.isNaN (JS.parseInt (compareId1 s))
            || JS.isNaN (JS.parseInt (compareId2 s)));
    [discriminate|reflexivity].
Qed.

End ComparePanel.

(** Entries that are the same text are rejected before any call. *)
Lemma same_text_rejected (s : CompareProperties.State)
    (net : Fetch.settled ComparisonResponse) :
  compareId1 s = compareId2 s ->
  calls (compareProperties s net) = []
  /\ exists msg, error (final (compareProperties s net)) = Some msg.
Proof.
  intros E. apply compare_rejected. unfold rejected.
  rewrite E, String.eqb_refl.
  now rewrite !orb_true_r.
Qed.

(** C4, the claim as stated fails: a comparison is stored, the next call
    is answered 404, and the panel shows the error together with the
    comparison stored before. *)
Lemma stale_result_after_failure :
  let o := compareProperties Samples.compared Samples.not_found in
  calls o <> []
  /\ comparisonResult (final o) = comparisonResult Samples.compared
  /\ error_banner (render (final o)) = Some "Property ID not found"
  /\ results (render (final o))
     = results (render Samples.compared)
  /\ results (render (final o)) <> None.
Proof. vm_compute. repeat split; discriminate. Qed.

(** C4, amended. For every request of the compare panel that completes,
    the loading indicator is cleared; when the call succeeded the stored
    result is the new response and no error is stored; when it failed
    the error message is stored and the stored result is left as it
    was. *)
Theorem compare_result_after_call (s : CompareProperties.State)
    (net : Fetch.settled ComparisonResponse) :
  let o := compareProperties s net in
  calls o <> [] ->
  compareLoading (final o) = false
  /\ match succeeded net with
     | Some r => comparisonResult (final o) = Some r /\ error (final o) = None
     | None =>
         comparisonResult (final o) = comparisonResult s
         /\ exists msg, error (final o) = Some msg
     end.
Proof.
  cbv zeta. intros Hc. apply compare_issued in Hc.
  rewrite (compare_accepted s net Hc). unfold succeeded.
  settle net; rewrite ?Hok, ?Hjson; cbn; eauto.
Qed.

Lemma compare_result_after_call_witness :
  let o := compareProperties Samples.compared Samples.found in
  compareLoading (final o) = false
  /\ comparisonResult (final o)
     = Some (Samples.response_of Samples.propertyA Samples.propertyB)
  /\ error (final o) = None.
Proof.
  apply (compare_result_after_call Samples.compared Samples.found).
  vm_compute. discriminate.
Defined.

(** C5 at its failing input: the identifier 1 entered as "01" and as "1".
    The two texts differ, the two numbers sent are equal, and one call is
    issued with them. *)
Theorem same_id_is_sent (net : Fetch.settled ComparisonResponse) :
  let s := Samples.same_id_twice in
  let o := compareProperties s net in
  (JS.parseInt (compareId1 s) === JS.parseInt (compareId2 s))%js = true
  /\ map (fun c => Fetch.body (snd c)) (calls o)
     = [Some (JObj [("id1", JNum (JS.of_Z 1)); ("id2", JNum (JS.of_Z 1))])].
Proof.
  cbv zeta. split; [vm_compute; reflexivity|].
  rewrite (compare_accepted Samples.same_id_twice net)
    by (vm_compute; reflexivity).
  settle net; subst req; reflexivity.
Qed.

(** C6. For every response to the compare request outside the 200-299
    range, the stored error message is "Property ID not found" when the
    status is 404, and otherwise "HTTP error! status: " followed by the
    status code in decimal. *)
Theorem compare_error_message (s : CompareProperties.State)
    (response : Fetch.response ComparisonResponse) :
  let o := compareProperties s (inr response) in
  calls o <> [] ->
  Fetch.ok response = false ->
  error (final o)
  = Some (if (Fetch.status response =? 404)%N
          then "Property ID not found"
          else "HTTP error! status: "
               ++ JS.N_toString (Fetch.status response)).
Proof.
  cbv zeta. intros Hc Hok. apply compare_issued in Hc.
  rewrite (compare_accepted s _ Hc).
  unfold_setters. rewrite try_catch_finally_set.
  repeat step. cbv iota beta. repeat step.
  rewrite Hok. reflexivity.
Qed.

Lemma compare_error_message_witness :
  error (final (compareProperties CompareProperties.initial
                  Samples.server_error))
  = Some "HTTP error! status: 500".
Proof.
  apply (compare_error_message CompareProperties.initial Samples.error_500);
    [vm_compute; discriminate | reflexivity].
Defined.

(** C7, the claim as stated fails: the compare panel and the listing
    panel define no reset, and the reset of the search panel, used while
    a search is awaited, leaves the panel busy, which the initial state
    is not. *)
Lemma reset_is_not_initial :
  panel_reset ComparePanel = None
  /\ panel_reset ListPanel = None
  /\ final (SearchProperties.resetForm Samples.searching)
     <> SearchProperties.initial.
Proof. repeat split. vm_compute. discriminate. Qed.

(** C7, amended. The search, prediction and recommendation panels have a
    reset operation; it issues no call and sets every form field, the
    stored result and the error message to their initial values, and it
    leaves the loading indicator as it is: the state after a reset is the
    initial state with the loading indicator of the state before.  The
    compare panel and the listing panel have no reset operation. *)
Theorem reset_clears_form_result_and_error :
  (forall s : SearchProperties.State,
      calls (SearchProperties.resetForm s) = []
      /\ final (SearchProperties.resetForm s)
         = final (run (SearchProperties.setLoading (SearchProperties.loading s))
                      SearchProperties.initial))
  /\ (forall s : Prediction.State,
         calls (Prediction.resetForm s) = []
         /\ final (Prediction.resetForm s)
            = final (run (Prediction.setLoading (Prediction.loading s))
                         Prediction.initial))
  /\ (forall s : Recommendation.State,
         calls (Recommendation.resetForm s) = []
         /\ final (Recommendation.resetForm s)
            = final (run (Recommendation.setLoading (Recommendation.loading s))
                         Recommendation.initial))
  /\ panel_reset ComparePanel = None
  /\ panel_reset ListPanel = None.
Proof. repeat split. Qed.

(** An idle panel is back in its initial state after a reset. *)
Corollary reset_when_idle (s : SearchProperties.State) :
  SearchProperties.loading s = false ->
  final (SearchProperties.resetForm s) = SearchProperties.initial.
Proof. intros H. cbv. cbv in H. now rewrite H. Qed.

(** ** The busy flag around a call *)

Create HintDb handler.

Section BusyFlag.

Context {St : Type} (busy : St -> bool).

Lemma keeps_flag_ret {A : Type} (a : A) : keeps_flag busy (ret a).
Proof.
  intros s l; split; [reflexivity|].
  exists []; cbn. now rewrite app_nil_r.
Qed.

Lemma keeps_flag_throw {A : Type} (e : thrown) :
  keeps_flag busy (throw (A := A) e).
Proof.
  intros s l; split; [reflexivity|].
  exists []; cbn. now rewrite app_nil_r.
Qed.

Lemma keeps_flag_lift {A : Type} (r : thrown + A) :
  keeps_flag busy (lift r).
Proof.
  intros s l; split; [reflexivity|].
  exists []; cbn. now rewrite app_nil_r.
Qed.

Lemma keeps_flag_json_of {A : Type} (r : Fetch.response A) :
  keeps_flag busy (json_of r).
Proof. apply (keeps_flag_lift (Fetch.json r)). Qed.

Lemma keeps_flag_check_ok {A : Type} (r : Fetch.response A)
    (errorMsg : string) :
  keeps_flag busy (check_ok r errorMsg).
Proof.
  unfold check_ok.
  destruct (negb (Fetch.ok r));
    [apply keeps_flag_throw | apply keeps_flag_ret].
Qed.

Lemma keeps_flag_fetch {A : Type} (req : Fetch.request)
    (net : Fetch.settled A) :
  keeps_flag busy (fetch req net).
Proof.
  intros s l; split; [reflexivity|].
  exists [(s, req)]; cbn. split; [reflexivity|].
  now constructor.
Qed.

Lemma keeps_flag_set (f : St -> St) :
  (forall s, busy (f s) = busy s) -> keeps_flag busy (set f).
Proof.
  intros Hf s l; split; [apply Hf|].
  exists []; cbn. now rewrite app_nil_r.
Qed.

Lemma keeps_flag_bind {A B : Type} (m : M St A) (k : A -> M St B) :
  keeps_flag busy m -> (forall a, keeps_flag busy (k a)) ->
  keeps_flag busy (bind m k).
Proof.
  intros Hm Hk s l. unfold bind.
  destruct (Hm s l) as (Hb & i1 & Hc & Hall).
  destruct (result (m s l)) as [e|a]; cbn.
  - split; [assumption|]. now exists i1.
  - destruct (Hk a (final (m s l)) (calls (m s l)))
      as (Hb' & i2 & Hc' & Hall').
    split; [congruence|].
    exists (i1 ++ i2)%list. split.
    + now rewrite Hc', Hc, app_assoc.
    + apply Forall_app; split; [assumption|].
      rewrite Hb in Hall'. assumption.
Qed.

Lemma keeps_flag_if {A : Type} (c : bool) (m1 m2 : M St A) :
  keeps_flag busy m1 -> keeps_flag busy m2 ->
  keeps_flag busy (if c then m1 else m2).
Proof. now destruct c. Qed.

Lemma keeps_flag_option {A B : Type} (x : option A) (m1 : A -> M St B)
    (m2 : M St B) :
  (forall a, keeps_flag busy (m1 a)) -> keeps_flag busy m2 ->
  keeps_flag busy match x with Some a => m1 a | None => m2 end.
Proof. now destruct x. Qed.

(** A handler that ends on a state setter issues no call. *)
Lemma set_busy (f : St -> St) (s : St) :
  busy_while_calling busy (run (set f) s).
Proof.
  split; cbn; [constructor|intros Hnil; now contradiction Hnil].
Qed.

(** A [try] statement that sets the flag first and clears it in its
    [finally] block, and keeps it in between. *)
Lemma try_finally_busy (on off : St -> St) (rest : M St unit)
    (handler : thrown -> M St unit) (s : St) :
  (forall s', busy (on s') = true) ->
  (forall s', busy (off s') = false) ->
  keeps_flag busy rest ->
  (forall e, keeps_flag busy (handler e)) ->
  busy_while_calling busy
    (run (try_catch_finally (bind (set on) (fun _ => rest)) handler
            (set off)) s).
Proof.
  intros Hon Hoff Hrest Hhandler.
  unfold run. rewrite try_catch_finally_set, bind_set.
  destruct (Hrest (on s) []) as (Hb & i1 & Hc & Hall).
  rewrite Hon in Hb, Hall. cbn in Hc.
  destruct (result (rest (on s) [])) as [e|[]].
  - destruct (Hhandler e (final (rest (on s) [])) (calls (rest (on s) [])))
      as (Hb' & i2 & Hc' & Hall').
    rewrite Hb in Hall'.
    split; cbn; [|intros _; apply Hoff].
    rewrite Hc', Hc. apply Forall_app; now split.
  - split; cbn; [|intros _; apply Hoff].
    now rewrite Hc.
Qed.

End BusyFlag.

#[local] Hint Resolve keeps_flag_ret keeps_flag_throw keeps_flag_lift
  keeps_flag_json_of keeps_flag_check_ok keeps_flag_fetch keeps_flag_bind
  keeps_flag_if keeps_flag_option : handler.

(** Proves that a handler body keeps the busy flag: operation by
    operation, each state setter by computing the flag it leaves. *)
Ltac keeps :=
  repeat first
    [ apply keeps_flag_bind; [|intros ?]
    | apply keeps_flag_set; intros ?; reflexivity
    | apply keeps_flag_if
    | apply keeps_flag_option; [intros ?|]
    | solve [auto with handler] ].

(** A handler that is its [try] statement. *)
Ltac bracketed :=
  apply try_finally_busy;
  [ intros ?; reflexivity | intros ?; reflexivity | keeps | intros ?; keeps ].

(** C8. For every call that a panel issues, the busy indicator of the
    panel is set in the state in which the call is issued, and it is
    clear once the handler has finished, however the call settles:
    rejected, answered with or without success, or with a body that does
    not parse. *)
Theorem busy_flag_brackets_every_call :
  (forall s net,
      busy_while_calling compareLoading (compareProperties s net))
  /\ (forall s net,
         busy_while_calling SearchProperties.loading
           (SearchProperties.handleSearch s net))
  /\ (forall year s net,
         busy_while_calling Prediction.loading
           (Prediction.handlePredict year s net))
  /\ (forall s net,
         busy_while_calling Recommendation.loading
           (Recommendation.handleRecommendation s net))
  /\ (forall s net,
         busy_while_calling Properties.loading
           (Properties.fetchProperties s net))
  /\ (forall propertyId s net,
         busy_while_calling Properties.detailsLoading
           (Properties.fetchPropertyDetails propertyId s net)).
Proof.
  repeat apply conj; intros.
  - destruct (rejected s) eqn:E.
    + destruct (compare_rejected s net E) as [Hc _].
      split; rewrite Hc; [constructor|intros Hnil; now contradiction Hnil].
    + rewrite (compare_accepted s net E). bracketed.
  - unfold SearchProperties.handleSearch.
    destruct (negb (JS.truthy (JS.trim (SearchProperties.location s))));
      [apply set_busy|].
    destruct (negb (JS.truthy (JS.trim (SearchProperties.budget s)))
              || (JS.Number (SearchProperties.budget s) <= JS.of_Z 0)%js);
      [apply set_busy|].
    bracketed.
  - unfold Prediction.handlePredict.
    destruct (JS.truthy_opt (Prediction.validateForm year s));
      [apply set_busy|].
    bracketed.
  - unfold Recommendation.handleRecommendation.
    destruct (JS.truthy_opt (Recommendation.validateForm s));
      [apply set_busy|].
    bracketed.
  - unfold Properties.fetchProperties. bracketed.
  - unfold Properties.fetchPropertyDetails. bracketed.
Qed.

(** The prediction panel on a filled form: one call, issued while busy,
    and the panel idle again after a server error. *)
Example predict_call_is_bracketed :
  let o :=
    Prediction.handlePredict 2026 Samples.prediction_form
      (inr {| Fetch.status := 503; Fetch.json := inr JNull |}) in
  map (fun c => Prediction.loading (fst c)) (calls o) = [true]
  /\ Prediction.loading (final o) = false
  /\ Prediction.error (final o) = Some "HTTP error! status: 503".
Proof. vm_compute. repeat split. Qed.

(** * Further properties of the comparison engine *)

(** A number that is not not-a-number is equal to itself. *)
Lemma SFcompare_refl (x : number) :
  JS.isNaN x = false -> SFcompare x x = Some Eq.
Proof.
  destruct x as [sx|sx| |sx mx ex]; simpl; intros H;
    try discriminate; try (destruct sx; reflexivity).
  rewrite Z.compare_refl, Pos.compare_cont_refl.
  destruct sx; reflexivity.
Qed.

(** X1. Comparing with the opposite polarity gives the object that
    comparing the two values the other way round gives, for all values,
    not-a-number included. *)
Theorem polarity_reverses_the_comparison (v1 v2 : number) (h : bool) :
  getComparison v1 v2 (negb h) = getComparison v2 v1 h.
Proof.
  unfold getComparison, JS.strict_eq, JS.gt, JS.lt, SFeqb, SFltb.
  rewrite (SFcompare_swap v1 v2).
  destruct (SFcompare v1 v2) as [[ | | ]|], h; reflexivity.
Qed.

(** X2. A value compared with itself ties, at either polarity, exactly
    when it is not not-a-number; not-a-number against itself goes to the
    second side. *)
Theorem self_comparison (v : number) (h : bool) :
  (JS.isNaN v = false <-> verdict_of (getComparison v v h) = Some Tie)
  /\ (JS.isNaN v = true <->
      verdict_of (getComparison v v h) = Some SecondWins).
Proof.
  rewrite getComparison_by_order.
  destruct (JS.isNaN v) eqn:E.
  - destruct v; try discriminate. simpl.
    repeat split; intros; try discriminate; reflexivity.
  - rewrite (SFcompare_refl v E).
    repeat split; intros; try discriminate; reflexivity.
Qed.

Lemma self_comparison_object (v : number) (h : bool) :
  JS.isNaN v = false ->
  getComparison v v h = {| winner := "Tie"; class := "tie" |}.
Proof.
  intros E. unfold getComparison, JS.strict_eq, SFeqb.
  now rewrite (SFcompare_refl v E).
Qed.

(** On two values that are not not-a-number, exchanging them exchanges
    the verdicts of the two sides. *)
Lemma attribute_swap (a : attribute) (p1 p2 : Property) :
  comparable p1 -> comparable p2 ->
  verdict_of (attribute_comparison a p2 p1)
  = option_map swap_verdict (verdict_of (attribute_comparison a p1 p2)).
Proof.
  intros H1 H2.
  rewrite !attribute_comparison_eq, !getComparison_by_order.
  rewrite (SFcompare_swap (attribute_value a p1) (attribute_value a p2)).
  pose proof (SFcompare_not_NaN _ _ (H1 a) (H2 a)) as Hord.
  destruct (SFcompare (attribute_value a p1) (attribute_value a p2))
    as [[ | | ]|], (higher_is_better a); simpl;
    try reflexivity; contradiction.
Qed.

Lemma count_verdict_swap (p1 p2 : Property) :
  comparable p1 -> comparable p2 ->
  count_verdict FirstWins p2 p1 = count_verdict SecondWins p1 p2
  /\ count_verdict SecondWins p2 p1 = count_verdict FirstWins p1 p2
  /\ count_verdict Tie p2 p1 = count_verdict Tie p1 p2.
Proof.
  intros H1 H2. unfold count_verdict.
  repeat split; f_equal; apply filter_ext; intros a;
    rewrite (attribute_swap a p1 p2 H1 H2);
    destruct (verdict_of (attribute_comparison a p1 p2)) as [[ | | ]|];
    reflexivity.
Qed.

(** The counts and the aggregate verdict of [renderComparisonResults],
    over the verdicts of the nine attributes. *)
Lemma tally_by_verdict (r : ComparisonResponse) :
  let o := renderComparisonResults r in
  property1Wins o = count_verdict FirstWins (property1 r) (property2 r)
  /\ property2Wins o = count_verdict SecondWins (property1 r) (property2 r)
  /\ ties o = count_verdict Tie (property1 r) (property2 r)
  /\ aggregate_of o =
     Some (if (property2Wins o <? property1Wins o)%nat then FirstWins
           else if (property1Wins o <? property2Wins o)%nat then SecondWins
           else Tie).
Proof.
  cbv zeta.
  destruct (renderComparisonResults_counts r) as (E1 & E2 & E3 & Ec).
  destruct (count_class_verdict (property1 r) (property2 r)) as (V1 & V2 & V3).
  rewrite <- V1, <- V2, <- V3.
  repeat split; try assumption.
  unfold aggregate_of. rewrite Ec.
  destruct (property2Wins (renderComparisonResults r)
            <? property1Wins (renderComparisonResults r))%nat;
    [reflexivity|].
  destruct (property1Wins (renderComparisonResults r)
            <? property2Wins (renderComparisonResults r))%nat;
    reflexivity.
Qed.

(** X3. When none of the compared values is not-a-number, exchanging the
    two properties exchanges the two win counts, keeps the number of
    ties and exchanges the sides of the aggregate verdict. *)
Theorem swapped_properties_swap_the_tally (r : ComparisonResponse) :
  comparable (property1 r) -> comparable (property2 r) ->
  let o := renderComparisonResults r in
  let o' := renderComparisonResults (swap_response r) in
  property1Wins o' = property2Wins o
  /\ property2Wins o' = property1Wins o
  /\ ties o' = ties o
  /\ aggregate_of o' = option_map swap_verdict (aggregate_of o).
Proof.
  intros H1 H2. cbv zeta.
  destruct (tally_by_verdict r) as (E1 & E2 & E3 & Ea).
  destruct (tally_by_verdict (swap_response r)) as (S1 & S2 & S3 & Sa).
  destruct (count_verdict_swap _ _ H1 H2) as (C1 & C2 & C3).
  cbn [swap_response property1 property2] in S1, S2, S3.
  assert (P1 : property1Wins (renderComparisonResults (swap_response r))
               = property2Wins (renderComparisonResults r)) by congruence.
  assert (P2 : property2Wins (renderComparisonResults (swap_response r))
               = property1Wins (renderComparisonResults r)) by congruence.
  repeat split; try congruence.
  rewrite Sa, Ea, P1, P2.
  destruct (Nat.ltb_spec (property2Wins (renderComparisonResults r))
                         (property1Wins (renderComparisonResults r)));
    destruct (Nat.ltb_spec (property1Wins (renderComparisonResults r))
                           (property2Wins (renderComparisonResults r)));
    try reflexivity; lia.
Qed.

Lemma swapped_properties_swap_the_tally_witness :
  let r := Samples.response_of Samples.propertyA Samples.propertyB in
  property1Wins (renderComparisonResults (swap_response r))
  = property2Wins (renderComparisonResults r).
Proof.
  apply (swapped_properties_swap_the_tally
           (Samples.response_of Samples.propertyA Samples.propertyB));
    intros a; destruct a; reflexivity.
Defined.

(** X4. A property compared with itself, none of whose compared values
    is not-a-number, ties on all nine attributes and overall. *)
Theorem same_record_ties (r : ComparisonResponse) :
  property1 r = property2 r ->
  comparable (property1 r) ->
  let o := renderComparisonResults r in
  (property1Wins o, property2Wins o, ties o) = (0, 0, 9)
  /\ aggregate_of o = Some Tie.
Proof.
  intros E H. cbv zeta.
  destruct (renderComparisonResults_counts r) as (E1 & E2 & E3 & _).
  destruct (tally_by_verdict r) as (_ & _ & _ & Ea).
  assert (Hitems :
    map (fun a => attribute_comparison a (property1 r) (property2 r)) tallied
    = map (fun _ => {| winner := "Tie"; class := "tie" |}) tallied).
  { apply map_ext; intros a. rewrite <- E, attribute_comparison_eq.
    apply self_comparison_object, H. }
  rewrite Hitems in E1, E2, E3.
  rewrite Ea, E1, E2, E3. split; reflexivity.
Qed.

Lemma same_record_ties_witness :
  let o :=
    renderComparisonResults
      (Samples.response_of Samples.propertyA Samples.propertyA) in
  (property1Wins o, property2Wins o, ties o) = (0, 0, 9)
  /\ aggregate_of o = Some Tie.
Proof.
  apply (same_record_ties
           (Samples.response_of Samples.propertyA Samples.propertyA));
    [reflexivity | intros a; destruct a; reflexivity].
Defined.

(** X5. Five wins out of the nine comparisons decide the aggregate
    verdict, for either side. *)
Theorem five_wins_decide (r : ComparisonResponse) :
  let o := renderComparisonResults r in
  (5 <= property1Wins o -> aggregate_of o = Some FirstWins)
  /\ (5 <= property2Wins o -> aggregate_of o = Some SecondWins).
Proof.
  cbv zeta.
  pose proof (tally_total r) as Ht. cbv zeta in Ht.
  destruct (tally_by_verdict r) as (_ & _ & _ & ->).
  split; intros H.
  - destruct (Nat.ltb_spec (property2Wins (renderComparisonResults r))
                           (property1Wins (renderComparisonResults r)));
      [reflexivity|lia].
  - destruct (Nat.ltb_spec (property2Wins (renderComparisonResults r))
                           (property1Wins (renderComparisonResults r)));
      [lia|].
    destruct (Nat.ltb_spec (property1Wins (renderComparisonResults r))
                           (property2Wins (renderComparisonResults r)));
      [reflexivity|lia].
Qed.

(** The house of 1500 square feet wins five comparisons against the
    same house with every value worse. *)
Lemma five_wins_decide_witness :
  aggregate_of
    (renderComparisonResults
       (Samples.response_of Samples.better Samples.propertyB))
  = Some FirstWins.
Proof.
  apply (five_wins_decide
           (Samples.response_of Samples.better Samples.propertyB)).
  vm_compute. lia.
Defined.

(** * Further properties of the panels *)

(** ** The outcome of a handler in closed form *)

Section RequestOutcome.

Context {St B : Type}.
Variables (pre off : St -> St) (fail : string -> St -> St).
Variables (req : Fetch.request) (net : Fetch.settled B).
Variable msg : Fetch.response B -> string.

(** A [try] statement around one call whose [catch] block stores the
    message: the call is issued once, nothing is thrown, and the state
    is settled by the continuation or by the [catch] block, then by the
    [finally] block. *)
Lemma request_outcome (k : B -> M St unit) (s : St) :
  run
    (try_catch_finally
       (set pre ;;
        response <- fetch req net ;;
        check_ok response (msg response) ;;
        result <- json_of response ;;
        k result)%handler
       (fun err => set (fail (message_of err)))
       (set off))
    s
  = match settlement msg net with
    | inl m =>
        {| final := off (fail m (pre s)); calls := [(pre s, req)];
           result := inr tt |}
    | inr b =>
        let o := k b (pre s) [(pre s, req)] in
        {| final :=
             off match result o with
                 | inr _ => final o
                 | inl e => fail (message_of e) (final o)
                 end;
           calls := calls o; result := inr tt |}
    end.
Proof.
  unfold run. rewrite try_catch_finally_set, bind_set, bind_fetch.
  unfold settlement.
  destruct net as [e|response]; [reflexivity|].
  rewrite bind_check_ok.
  destruct (Fetch.ok response); [|reflexivity].
  rewrite bind_json_of.
  destruct (Fetch.json response) as [e|b]; [reflexivity|].
  cbv zeta. cbn [app].
  destruct (k b (pre s) [(pre s, req)]) as [f c [e|[]]]; reflexivity.
Qed.

(** The same when the continuation is one state setter. *)
Lemma post_outcome (store : B -> St -> St) (s : St) :
  run
    (try_catch_finally
       (set pre ;;
        response <- fetch req net ;;
        check_ok response (msg response) ;;
        result <- json_of response ;;
        set (store result))%handler
       (fun err => set (fail (message_of err)))
       (set off))
    s
  = {| final :=
         off match settlement msg net with
             | inr b => store b (pre s)
             | inl m => fail m (pre s)
             end;
       calls := [(pre s, req)]; result := inr tt |}.
Proof.
  rewrite request_outcome.
  destruct (settlement msg net); reflexivity.
Qed.

End RequestOutcome.

Lemma settlement_succeeded {B : Type} (msg : Fetch.response B -> string)
    (net : Fetch.settled B) :
  succeeded net
  = match settlement msg net with inr b => Some b | inl _ => None end.
Proof.
  destruct net as [e|response]; [reflexivity|]. simpl.
  destruct (Fetch.ok response); [|reflexivity].
  destruct (Fetch.json response); reflexivity.
Qed.

Lemma settlement_thrown {B : Type} (msg : Fetch.response B -> string)
    (net : Fetch.settled B) (err : thrown) :
  thrown_by net = Some err -> settlement msg net = inl (message_of err).
Proof.
  destruct net as [e|response]; simpl; [congruence|].
  destruct (Fetch.ok response); [|discriminate].
  destruct (Fetch.json response); congruence.
Qed.

Lemma settlement_status {B : Type} (msg : Fetch.response B -> string)
    (response : Fetch.response B) :
  Fetch.ok response = false ->
  settlement msg (inr response) = inl (msg response).
Proof. simpl. now intros ->. Qed.

(** *** The compare panel *)

Lemma compare_outcome (s : CompareProperties.State)
    (net : Fetch.settled ComparisonResponse) :
  rejected s = false ->
  let pending :=
    after (CompareProperties.setError None)
      (after (setCompareLoading true) s) in
  compareProperties s net
  = {| final :=
         after (setCompareLoading false)
           match settlement
                   (fun r => if (Fetch.status r =? 404)%N
                             then "Property ID not found"
                             else http_error (Fetch.status r)) net with
           | inr b => after (setComparisonResult (Some b)) pending
           | inl m => after (CompareProperties.setError (Some m)) pending
           end;
       calls :=
         [(pending,
           Fetch.post "http://127.0.0.1:8000/comparebyid"
             (JObj [("id1", JNum (JS.parseInt (compareId1 s)));
                    ("id2", JNum (JS.parseInt (compareId2 s)))]))];
       result := inr tt |}.
Proof.
  intros E pending. rewrite (compare_accepted s net E).
  exact (post_outcome
           (fun s => after (CompareProperties.setError None)
                       (after (setCompareLoading true) s))
           (after (setCompareLoading false))
           (fun m => after (CompareProperties.setError (Some m)))
           _ net _
           (fun b => after (setComparisonResult (Some b))) s).
Qed.

Lemma compare_refused (s : CompareProperties.State)
    (net : Fetch.settled ComparisonResponse) :
  rejected s = true ->
  exists msg,
    compareProperties s net = run (CompareProperties.setError (Some msg)) s.
Proof.
  unfold rejected, compareProperties.
  destruct (negb (JS.truthy (compareId1 s)) || negb (JS.truthy (compareId2 s)));
    [intros _; eexists; reflexivity|].
  destruct (String.eqb (compareId1 s) (compareId2 s));
    [intros _; eexists; reflexivity|].
  cbn [orb].
  destruct (JS.isNaN (JS.parseInt (compareId1 s))
            || JS.isNaN (JS.parseInt (compareId2 s)));
    [intros _; eexists; reflexivity|discriminate].
Qed.

(** *** The search panel *)

Lemma search_outcome (s : SearchProperties.State)
    (net : Fetch.settled JSON) :
  search_rejected s = false ->
  let pending :=
    after (SearchProperties.setError None)
      (after (SearchProperties.setLoading true) s) in
  SearchProperties.handleSearch s net
  = {| final :=
         after (SearchProperties.setLoading false)
           match settlement
                   (fun r => if (Fetch.status r =? 400)%N
                             then "Invalid search parameters"
                             else http_error (Fetch.status r)) net with
           | inr b => after (SearchProperties.setSearchResults (Some b)) pending
           | inl m => after (SearchProperties.setError (Some m)) pending
           end;
       calls :=
         [(pending,
           Fetch.post "http://127.0.0.1:8000/findproperties"
             (JObj [("location", JStr (JS.trim (SearchProperties.location s)));
                    ("budget", JNum (JS.Number (SearchProperties.budget s)));
                    ("preferences", SearchProperties.buildPreferences s)]))];
       result := inr tt |}.
Proof.
  intros E pending. unfold search_rejected in E.
  unfold SearchProperties.handleSearch.
  destruct (negb (JS.truthy (JS.trim (SearchProperties.location s))));
    [discriminate|].
  cbn [orb] in E. rewrite E.
  exact (post_outcome
           (fun s => after (SearchProperties.setError None)
                       (after (SearchProperties.setLoading true) s))
           (after (SearchProperties.setLoading false))
           (fun m => after (SearchProperties.setError (Some m)))
           _ net _
           (fun b => after (SearchProperties.setSearchResults (Some b))) s).
Qed.

Lemma search_refused (s : SearchProperties.State)
    (net : Fetch.settled JSON) :
  search_rejected s = true ->
  SearchProperties.handleSearch s net
  = run (SearchProperties.setError
           (Some (if JS.truthy (JS.trim (SearchProperties.location s))
                  then "Please enter a valid budget amount"
                  else "Location is required"))) s.
Proof.
  unfold search_rejected, SearchProperties.handleSearch.
  destruct (JS.truthy (JS.trim (SearchProperties.location s)));
    cbn [negb orb]; [|reflexivity].
  now intros ->.
Qed.

(** *** The prediction panel *)

Lemma predict_outcome (year : N) (s : Prediction.State)
    (net : Fetch.settled JSON) :
  JS.truthy_opt (Prediction.validateForm year s) = false ->
  let pending :=
    after (Prediction.setError None) (after (Prediction.setLoading true) s) in
  exists payload,
    payload =
      ([("property_type", JStr (Prediction.propertyType s));
        ("bedrooms", JNum (JS.Number (Prediction.bedrooms s)));
        ("bathrooms", JNum (JS.Number (Prediction.bathrooms s)));
        ("year_built", JNum (JS.Number (Prediction.yearBuilt s)));
        ("has_pool", JBool (Prediction.hasPool s));
        ("has_garage", JBool (Prediction.hasGarage s));
        ("school_rating", JNum (JS.Number (Prediction.schoolRating s)))]
       ++ (if String.eqb (Prediction.propertyType s) "SFH"
           then [("lot_area", JNum (JS.Number (Prediction.lotArea s)))]
           else [])
       ++ (if String.eqb (Prediction.propertyType s) "Condo"
           then [("building_area",
                  JNum (JS.Number (Prediction.buildingArea s)))]
           else []))%list
    /\ Prediction.handlePredict year s net
       = {| final :=
              after (Prediction.setLoading false)
                match settlement
                        (fun r => if (Fetch.status r =? 400)%N
                                  then "Invalid request data"
                                  else http_error (Fetch.status r)) net with
                | inr b =>
                    after (Prediction.setPredictionResult (Some b)) pending
                | inl m => after (Prediction.setError (Some m)) pending
                end;
            calls :=
              [(pending,
                Fetch.post "https://agentmira-backend.onrender.com/predict"
                  (JObj payload))];
            result := inr tt |}.
Proof.
  intros E pending. unfold Prediction.handlePredict.
  eexists; split; [reflexivity|].
  rewrite E.
  exact (post_outcome
           (fun s => after (Prediction.setError None)
                       (after (Prediction.setLoading true) s))
           (after (Prediction.setLoading false))
           (fun m => after (Prediction.setError (Some m)))
           _ net _
           (fun b => after (Prediction.setPredictionResult (Some b))) s).
Qed.

Lemma predict_refused (year : N) (s : Prediction.State)
    (net : Fetch.settled JSON) :
  JS.truthy_opt (Prediction.validateForm year s) = true ->
  Prediction.handlePredict year s net
  = run (Prediction.setError (Prediction.validateForm year s)) s.
Proof. unfold Prediction.handlePredict. now intros ->. Qed.

(** *** The recommendation panel *)

Lemma recommend_outcome (s : Recommendation.State)
    (net : Fetch.settled JSON) :
  JS.truthy_opt (Recommendation.validateForm s) = false ->
  let pending :=
    after (Recommendation.setError None)
      (after (Recommendation.setLoading true) s) in
  Recommendation.handleRecommendation s net
  = {| final :=
         after (Recommendation.setLoading false)
           match settlement
                   (fun r => if (Fetch.status r =? 400)%N
                                || (Fetch.status r =? 404)%N
                             then "No properties found for your criteria"
                             else http_error (Fetch.status r)) net with
           | inr b =>
               after (Recommendation.setRecommendationResult (Some b)) pending
           | inl m => after (Recommendation.setError (Some m)) pending
           end;
       calls :=
         [(pending,
           Fetch.post "http://127.0.0.1:8000/recommend"
             (JObj [("user_budget",
                     JNum (JS.Number (Recommendation.userBudget s)));
                    ("user_min_bedrooms",
                     JNum (JS.Number (Recommendation.userMinBedrooms s)))]))];
       result := inr tt |}.
Proof.
  intros E pending. unfold Recommendation.handleRecommendation.
  rewrite E.
  exact (post_outcome
           (fun s => after (Recommendation.setError None)
                       (after (Recommendation.setLoading true) s))
           (after (Recommendation.setLoading false))
           (fun m => after (Recommendation.setError (Some m)))
           _ net _
           (fun b => after (Recommendation.setRecommendationResult (Some b)))
           s).
Qed.

Lemma recommend_refused (s : Recommendation.State)
    (net : Fetch.settled JSON) :
  JS.truthy_opt (Recommendation.validateForm s) = true ->
  Recommendation.handleRecommendation s net
  = run (Recommendation.setError (Recommendation.validateForm s)) s.
Proof. unfold Recommendation.handleRecommendation. now intros ->. Qed.


(** ** What every handler does *)

Section Silent.

Context {St : Type}.

Lemma silent_ret {A : Type} (a : A) : silent (St := St) (ret a).
Proof. intros s l; reflexivity. Qed.

Lemma silent_lift {A : Type} (r : thrown + A) : silent (St := St) (lift r).
Proof. intros s l; reflexivity. Qed.

Lemma silent_set (f : St -> St) : silent (set f).
Proof. intros s l; reflexivity. Qed.

Lemma silent_bind {A B : Type} (m : M St A) (k : A -> M St B) :
  silent m -> (forall a, silent (k a)) -> silent (bind m k).
Proof.
  intros Hm Hk s l. unfold bind.
  destruct (result (m s l)) as [e|a] eqn:E; cbn; [apply Hm|].
  rewrite Hk. apply Hm.
Qed.

Lemma silent_if {A : Type} (c : bool) (m1 m2 : M St A) :
  silent m1 -> silent m2 -> silent (if c then m1 else m2).
Proof. now destruct c. Qed.

Lemma silent_option {A B : Type} (x : option A) (m1 : A -> M St B)
    (m2 : M St B) :
  (forall a, silent (m1 a)) -> silent m2 ->
  silent match x with Some a => m1 a | None => m2 end.
Proof. now destruct x. Qed.

End Silent.

(** Proves that a computation without a call issues none. *)
Ltac quiet :=
  repeat first
    [ apply silent_bind; [|intros ?]
    | apply silent_set | apply silent_ret | apply silent_lift
    | apply silent_if
    | apply silent_option; [intros ?|] ].

(** The outcome of the two handlers of the listing panel. *)
Lemma fetchProperties_outcome (s : Properties.State)
    (net : Fetch.settled JSON) :
  exists (req : Fetch.request) (k : JSON -> M Properties.State unit),
    (forall b, silent (k b))
    /\ (forall b,
           k b =
           (status <- lift (get_property b "status") ;;
            is_list <-
              (if is_string "success" status then
                 items <- lift (get_property b "properties") ;;
                 ret (isArray items)
               else ret None) ;;
            match is_list with
            | Some items =>
                Properties.setProperties items ;;
                total <- lift (get_property b "total_properties") ;;
                Properties.setTotalProperties total
            | None =>
                Properties.setProperties [] ;;
                Properties.setTotalProperties (JNum (JS.of_Z 0))
            end)%handler)
    /\ let pending :=
         after (Properties.setError None)
           (after (Properties.setLoading true) s) in
       let fail m :=
         after (Properties.setError
                  (Some ("Failed to fetch properties: " ++ m))) in
       Properties.fetchProperties s net
       = match settlement (fun r => http_error (Fetch.status r)) net with
         | inl m =>
             {| final := after (Properties.setLoading false) (fail m pending);
                calls := [(pending, req)]; result := inr tt |}
         | inr b =>
             let o := k b pending [(pending, req)] in
             {| final :=
                  after (Properties.setLoading false)
                    match result o with
                    | inr _ => final o
                    | inl e => fail (message_of e) (final o)
                    end;
                calls := calls o; result := inr tt |}
         end.
Proof.
  eexists; eexists. split; [|split; [intros b; reflexivity|]].
  - intros b. quiet.
  - cbv zeta. unfold Properties.fetchProperties.
    exact (request_outcome
             (fun s => after (Properties.setError None)
                         (after (Properties.setLoading true) s))
             (after (Properties.setLoading false))
             (fun m => after (Properties.setError
                                (Some ("Failed to fetch properties: " ++ m))))
             _ net _ _ s).
Qed.

Lemma fetchPropertyDetails_outcome (propertyId : number)
    (s : Properties.State) (net : Fetch.settled JSON) :
  exists (req : Fetch.request) (k : JSON -> M Properties.State unit),
    (forall b, silent (k b))
    /\ (forall b,
           k b =
           (status <- lift (get_property b "status") ;;
            found <-
              (if is_string "success" status then
                 property <- lift (get_property b "property") ;;
                 ret (if JSON_truthy property then Some property else None)
               else ret None) ;;
            match found with
            | Some property =>
                Properties.setSelectedProperty (Some property) ;;
                Properties.setShowModal true
            | None => ret tt
            end)%handler)
    /\ let pending := after (Properties.setDetailsLoading true) s in
       let fail m :=
         after (Properties.setError
                  (Some ("Failed to fetch details: " ++ m))) in
       Properties.fetchPropertyDetails propertyId s net
       = match settlement (fun r => http_error (Fetch.status r)) net with
         | inl m =>
             {| final :=
                  after (Properties.setDetailsLoading false) (fail m pending);
                calls := [(pending, req)]; result := inr tt |}
         | inr b =>
             let o := k b pending [(pending, req)] in
             {| final :=
                  after (Properties.setDetailsLoading false)
                    match result o with
                    | inr _ => final o
                    | inl e => fail (message_of e) (final o)
                    end;
                calls := calls o; result := inr tt |}
         end.
Proof.
  eexists; eexists. split; [|split; [intros b; reflexivity|]].
  - intros b. quiet.
  - cbv zeta. unfold Properties.fetchPropertyDetails.
    exact (request_outcome
             (after (Properties.setDetailsLoading true))
             (after (Properties.setDetailsLoading false))
             (fun m => after (Properties.setError
                                (Some ("Failed to fetch details: " ++ m))))
             _ net _ _ s).
Qed.

(** X6. No handler lets an exception out: whatever the validation and
    however the call settles, the six handlers complete normally. *)
Theorem handlers_never_throw :
  (forall s net, result (compareProperties s net) = inr tt)
  /\ (forall s net, result (SearchProperties.handleSearch s net) = inr tt)
  /\ (forall year s net,
         result (Prediction.handlePredict year s net) = inr tt)
  /\ (forall s net,
         result (Recommendation.handleRecommendation s net) = inr tt)
  /\ (forall s net, result (Properties.fetchProperties s net) = inr tt)
  /\ (forall propertyId s net,
         result (Properties.fetchPropertyDetails propertyId s net) = inr tt).
Proof.
  repeat apply conj; intros.
  - destruct (rejected s) eqn:E.
    + destruct (compare_refused s net E) as [msg ->]. reflexivity.
    + now rewrite (compare_outcome s net E).
  - destruct (search_rejected s) eqn:E.
    + now rewrite (search_refused s net E).
    + now rewrite (search_outcome s net E).
  - destruct (JS.truthy_opt (Prediction.validateForm year s)) eqn:E.
    + now rewrite (predict_refused year s net E).
    + destruct (predict_outcome year s net E) as (payload & _ & ->).
      reflexivity.
  - destruct (JS.truthy_opt (Recommendation.validateForm s)) eqn:E.
    + now rewrite (recommend_refused s net E).
    + now rewrite (recommend_outcome s net E).
  - destruct (fetchProperties_outcome s net) as (req & k & _ & _ & ->).
    destruct (settlement _ net); reflexivity.
  - destruct (fetchPropertyDetails_outcome propertyId s net)
      as (req & k & _ & _ & ->).
    destruct (settlement _ net); reflexivity.
Qed.

(** X7. A submission issues no call when the validation rejects it and
    exactly one call otherwise; a refresh of the listing and a request
    for details always issue exactly one call. *)
Theorem one_call_per_submission :
  (forall s net,
      List.length (calls (compareProperties s net))
      = if rejected s then 0 else 1)
  /\ (forall s net,
         List.length (calls (SearchProperties.handleSearch s net))
         = if search_rejected s then 0 else 1)
  /\ (forall year s net,
         List.length (calls (Prediction.handlePredict year s net))
         = if JS.truthy_opt (Prediction.validateForm year s) then 0 else 1)
  /\ (forall s net,
         List.length (calls (Recommendation.handleRecommendation s net))
         = if JS.truthy_opt (Recommendation.validateForm s) then 0 else 1)
  /\ (forall s net,
         List.length (calls (Properties.fetchProperties s net)) = 1)
  /\ (forall propertyId s net,
         List.length
           (calls (Properties.fetchPropertyDetails propertyId s net)) = 1).
Proof.
  repeat apply conj; intros.
  - destruct (rejected s) eqn:E.
    + destruct (compare_refused s net E) as [msg ->]. reflexivity.
    + now rewrite (compare_outcome s net E).
  - destruct (search_rejected s) eqn:E.
    + now rewrite (search_refused s net E).
    + now rewrite (search_outcome s net E).
  - destruct (JS.truthy_opt (Prediction.validateForm year s)) eqn:E.
    + now rewrite (predict_refused year s net E).
    + destruct (predict_outcome year s net E) as (payload & _ & ->).
      reflexivity.
  - destruct (JS.truthy_opt (Recommendation.validateForm s)) eqn:E.
    + now rewrite (recommend_refused s net E).
    + now rewrite (recommend_outcome s net E).
  - destruct (fetchProperties_outcome s net) as (req & k & Hk & _ & ->).
    destruct (settlement _ net) as [m|b]; [reflexivity|].
    cbv zeta. cbn [calls]. now rewrite Hk.
  - destruct (fetchPropertyDetails_outcome propertyId s net)
      as (req & k & Hk & _ & ->).
    destruct (settlement _ net) as [m|b]; [reflexivity|].
    cbv zeta. cbn [calls]. now rewrite Hk.
Qed.

Lemma truthy_opt_some (x : option string) :
  JS.truthy_opt x = true -> exists msg, x = Some msg.
Proof. destruct x; [eauto|discriminate]. Qed.

(** X8. A submission that issues no call changes nothing but the error
    message: the form, the stored result and the loading indicator are
    those of the state before. *)
Theorem rejection_changes_only_error :
  (forall s net,
      calls (compareProperties s net) = [] ->
      exists msg,
        final (compareProperties s net)
        = after (CompareProperties.setError (Some msg)) s)
  /\ (forall s net,
         calls (SearchProperties.handleSearch s net) = [] ->
         exists msg,
           final (SearchProperties.handleSearch s net)
           = after (SearchProperties.setError (Some msg)) s)
  /\ (forall year s net,
         calls (Prediction.handlePredict year s net) = [] ->
         exists msg,
           final (Prediction.handlePredict year s net)
           = after (Prediction.setError (Some msg)) s)
  /\ (forall s net,
         calls (Recommendation.handleRecommendation s net) = [] ->
         exists msg,
           final (Recommendation.handleRecommendation s net)
           = after (Recommendation.setError (Some msg)) s).
Proof.
  repeat apply conj; intros *.
  - destruct (rejected s) eqn:E.
    + destruct (compare_refused s net E) as [msg ->]. now exists msg.
    + rewrite (compare_outcome s net E). discriminate.
  - destruct (search_rejected s) eqn:E.
    + rewrite (search_refused s net E). intros _; eexists; reflexivity.
    + rewrite (search_outcome s net E). discriminate.
  - destruct (JS.truthy_opt (Prediction.validateForm year s)) eqn:E.
    + rewrite (predict_refused year s net E).
      destruct (truthy_opt_some _ E) as [msg ->].
      intros _; eexists; reflexivity.
    + destruct (predict_outcome year s net E) as (payload & _ & ->).
      discriminate.
  - destruct (JS.truthy_opt (Recommendation.validateForm s)) eqn:E.
    + rewrite (recommend_refused s net E).
      destruct (truthy_opt_some _ E) as [msg ->].
      intros _; eexists; reflexivity.
    + rewrite (recommend_outcome s net E). discriminate.
Qed.

Lemma rejection_changes_only_error_witness :
  (exists msg,
      final (compareProperties Samples.compared_same Samples.found)
      = after (CompareProperties.setError (Some msg)) Samples.compared_same)
  /\ (exists msg,
         final (SearchProperties.handleSearch SearchProperties.initial
                  Samples.offline)
         = after (SearchProperties.setError (Some msg))
             SearchProperties.initial)
  /\ (exists msg,
         final (Prediction.handlePredict 2026 Prediction.initial
                  Samples.offline)
         = after (Prediction.setError (Some msg)) Prediction.initial)
  /\ (exists msg,
         final (Recommendation.handleRecommendation Recommendation.initial
                  Samples.offline)
         = after (Recommendation.setError (Some msg)) Recommendation.initial).
Proof.
  destruct rejection_changes_only_error as (H1 & H2 & H3 & H4).
  repeat apply conj;
    [ apply H1 | apply H2 | apply H3 | apply H4 ]; reflexivity.
Defined.


(** X9. While a call is awaited the control that triggers it is
    disabled: in the state in which any of the six handlers issues its
    call, the button of the panel (for the details, the buttons of the
    identifiers) is disabled. *)
Theorem trigger_disabled_while_awaiting :
  (forall s net,
      Forall (fun c => button_disabled (render (fst c)) = true)
             (calls (compareProperties s net)))
  /\ (forall s net,
         Forall (fun c => SearchProperties.button_disabled (fst c) = true)
                (calls (SearchProperties.handleSearch s net)))
  /\ (forall year s net,
         Forall (fun c => Prediction.button_disabled (fst c) = true)
                (calls (Prediction.handlePredict year s net)))
  /\ (forall s net,
         Forall (fun c => Recommendation.button_disabled (fst c) = true)
                (calls (Recommendation.handleRecommendation s net)))
  /\ (forall s net,
         Forall (fun c =>
                   Properties.refresh_disabled (Properties.render (fst c))
                   = true)
                (calls (Properties.fetchProperties s net)))
  /\ (forall propertyId s net,
         Forall (fun c =>
                   Properties.id_buttons_disabled
                     (Properties.render (fst c)) = true)
                (calls (Properties.fetchPropertyDetails propertyId s net))).
Proof.
  repeat apply conj; intros.
  - destruct (rejected s) eqn:E.
    + destruct (compare_refused s net E) as [msg ->]. constructor.
    + rewrite (compare_outcome s net E). now repeat constructor.
  - destruct (search_rejected s) eqn:E.
    + rewrite (search_refused s net E). constructor.
    + rewrite (search_outcome s net E). now repeat constructor.
  - destruct (JS.truthy_opt (Prediction.validateForm year s)) eqn:E.
    + rewrite (predict_refused year s net E). constructor.
    + destruct (predict_outcome year s net E) as (payload & _ & ->).
      now repeat constructor.
  - destruct (JS.truthy_opt (Recommendation.validateForm s)) eqn:E.
    + rewrite (recommend_refused s net E). constructor.
    + rewrite (recommend_outcome s net E). now repeat constructor.
  - destruct (fetchProperties_outcome s net) as (req & k & Hk & _ & ->).
    destruct (settlement _ net) as [m|b]; cbv zeta; cbn [calls];
      rewrite ?Hk; now repeat constructor.
  - destruct (fetchPropertyDetails_outcome propertyId s net)
      as (req & k & Hk & _ & ->).
    destruct (settlement _ net) as [m|b]; cbv zeta; cbn [calls];
      rewrite ?Hk; now repeat constructor.
Qed.

(** X10. In the search, prediction and recommendation panels, once a
    request completes the loading indicator is cleared; a call that
    succeeded stores its response and no error; a call that failed
    stores an error message and leaves the stored result as it was. *)
Theorem result_is_kept_on_failure :
  (forall s net,
      let o := SearchProperties.handleSearch s net in
      calls o <> [] ->
      SearchProperties.loading (final o) = false
      /\ match succeeded net with
         | Some b =>
             SearchProperties.searchResults (final o) = Some b
             /\ SearchProperties.error (final o) = None
         | None =>
             SearchProperties.searchResults (final o)
             = SearchProperties.searchResults s
             /\ exists msg, SearchProperties.error (final o) = Some msg
         end)
  /\ (forall year s net,
         let o := Prediction.handlePredict year s net in
         calls o <> [] ->
         Prediction.loading (final o) = false
         /\ match succeeded net with
            | Some b =>
                Prediction.predictionResult (final o) = Some b
                /\ Prediction.error (final o) = None
            | None =>
                Prediction.predictionResult (final o)
                = Prediction.predictionResult s
                /\ exists msg, Prediction.error (final o) = Some msg
            end)
  /\ (forall s net,
         let o := Recommendation.handleRecommendation s net in
         calls o <> [] ->
         Recommendation.loading (final o) = false
         /\ match succeeded net with
            | Some b =>
                Recommendation.recommendationResult (final o) = Some b
                /\ Recommendation.error (final o) = None
            | None =>
                Recommendation.recommendationResult (final o)
                = Recommendation.recommendationResult s
                /\ exists msg, Recommendation.error (final o) = Some msg
            end).
Proof.
  repeat apply conj; intros *; subst o.
  - destruct (search_rejected s) eqn:E;
      [rewrite (search_refused s net E); intros H; now contradiction H|].
    rewrite (search_outcome s net E); intros _.
    rewrite (settlement_succeeded
               (fun r => if (Fetch.status r =? 400)%N
                         then "Invalid search parameters"
                         else http_error (Fetch.status r)) net).
    destruct (settlement _ net); cbn; eauto.
  - destruct (JS.truthy_opt (Prediction.validateForm year s)) eqn:E;
      [rewrite (predict_refused year s net E); intros H; now contradiction H|].
    destruct (predict_outcome year s net E) as (payload & _ & ->); intros _.
    rewrite (settlement_succeeded
               (fun r => if (Fetch.status r =? 400)%N
                         then "Invalid request data"
                         else http_error (Fetch.status r)) net).
    destruct (settlement _ net); cbn; eauto.
  - destruct (JS.truthy_opt (Recommendation.validateForm s)) eqn:E;
      [rewrite (recommend_refused s net E); intros H; now contradiction H|].
    rewrite (recommend_outcome s net E); intros _.
    rewrite (settlement_succeeded
               (fun r => if (Fetch.status r =? 400)%N
                            || (Fetch.status r =? 404)%N
                         then "No properties found for your criteria"
                         else http_error (Fetch.status r)) net).
    destruct (settlement _ net); cbn; eauto.
Qed.

Lemma result_is_kept_on_failure_witness :
  (let o := SearchProperties.handleSearch Samples.search_form
              Samples.unavailable in
   SearchProperties.searchResults (final o) = None
   /\ exists msg, SearchProperties.error (final o) = Some msg)
  /\ (let o := Prediction.handlePredict 2026 Samples.prediction_form
                 (Samples.answered Samples.details) in
      Prediction.predictionResult (final o) = Some Samples.details
      /\ Prediction.error (final o) = None)
  /\ (let o := Recommendation.handleRecommendation
                 Samples.recommendation_form Samples.offline in
      Recommendation.recommendationResult (final o) = None
      /\ exists msg, Recommendation.error (final o) = Some msg).
Proof.
  destruct result_is_kept_on_failure as (H1 & H2 & H3).
  split; [|split].
  - refine (proj2 (H1 Samples.search_form Samples.unavailable _)).
    vm_compute; discriminate.
  - refine (proj2 (H2 2026%N Samples.prediction_form
                      (Samples.answered Samples.details) _)).
    vm_compute; discriminate.
  - refine (proj2 (H3 Samples.recommendation_form Samples.offline _)).
    vm_compute; discriminate.
Defined.

(** X11. For a response outside the 200-299 range the stored message is
    "Invalid search parameters" on 400 in the search panel, "Invalid
    request data" on 400 in the prediction panel and "No properties
    found for your criteria" on 400 and on 404 in the recommendation
    panel; any other status gives "HTTP error! status: " followed by the
    status. *)
Theorem status_messages :
  (forall s response,
      let o := SearchProperties.handleSearch s (inr response) in
      calls o <> [] -> Fetch.ok response = false ->
      SearchProperties.error (final o)
      = Some (if (Fetch.status response =? 400)%N
              then "Invalid search parameters"
              else "HTTP error! status: "
                   ++ JS.N_toString (Fetch.status response)))
  /\ (forall year s response,
         let o := Prediction.handlePredict year s (inr response) in
         calls o <> [] -> Fetch.ok response = false ->
         Prediction.error (final o)
         = Some (if (Fetch.status response =? 400)%N
                 then "Invalid request data"
                 else "HTTP error! status: "
                      ++ JS.N_toString (Fetch.status response)))
  /\ (forall s response,
         let o := Recommendation.handleRecommendation s (inr response) in
         calls o <> [] -> Fetch.ok response = false ->
         Recommendation.error (final o)
         = Some (if (Fetch.status response =? 400)%N
                    || (Fetch.status response =? 404)%N
                 then "No properties found for your criteria"
                 else "HTTP error! status: "
                      ++ JS.N_toString (Fetch.status response))).
Proof.
  repeat apply conj; intros *; subst o.
  - destruct (search_rejected s) eqn:E;
      [rewrite (search_refused s _ E); intros H; now contradiction H|].
    rewrite (search_outcome s _ E); intros _ Hok.
    now rewrite settlement_status.
  - destruct (JS.truthy_opt (Prediction.validateForm year s)) eqn:E;
      [rewrite (predict_refused year s _ E); intros H; now contradiction H|].
    destruct (predict_outcome year s (inr response) E)
      as (payload & _ & ->); intros _ Hok.
    now rewrite settlement_status.
  - destruct (JS.truthy_opt (Recommendation.validateForm s)) eqn:E;
      [rewrite (recommend_refused s _ E); intros H; now contradiction H|].
    rewrite (recommend_outcome s _ E); intros _ Hok.
    now rewrite settlement_status.
Qed.

Lemma status_messages_witness :
  SearchProperties.error
    (final (SearchProperties.handleSearch Samples.search_form
              (inr (Samples.status_only 404))))
  = Some "HTTP error! status: 404"
  /\ Prediction.error
       (final (Prediction.handlePredict 2026 Samples.prediction_form
                 (inr (Samples.status_only 400))))
     = Some "Invalid request data"
  /\ Recommendation.error
       (final (Recommendation.handleRecommendation
                 Samples.recommendation_form
                 (inr (Samples.status_only 404))))
     = Some "No properties found for your criteria".
Proof.
  destruct status_messages as (H1 & H2 & H3).
  repeat apply conj.
  - apply (H1 Samples.search_form (Samples.status_only 404));
      [vm_compute; discriminate | reflexivity].
  - apply (H2 2026%N Samples.prediction_form (Samples.status_only 400));
      [vm_compute; discriminate | reflexivity].
  - apply (H3 Samples.recommendation_form (Samples.status_only 404));
      [vm_compute; discriminate | reflexivity].
Defined.

(** X12. When the promise of the call is rejected, or the body of a
    response in the 200-299 range does not parse, the stored message is
    the message of the thrown error ("Unknown error" when the thrown
    value is no error): as it is in the compare, search, prediction and
    recommendation panels, after "Failed to fetch properties: " and
    "Failed to fetch details: " in the listing panel. *)
Theorem thrown_message_is_shown (err : thrown) :
  (forall s net,
      calls (compareProperties s net) <> [] -> thrown_by net = Some err ->
      CompareProperties.error (final (compareProperties s net))
      = Some (message_of err))
  /\ (forall s net,
         calls (SearchProperties.handleSearch s net) <> [] ->
         thrown_by net = Some err ->
         SearchProperties.error (final (SearchProperties.handleSearch s net))
         = Some (message_of err))
  /\ (forall year s net,
         calls (Prediction.handlePredict year s net) <> [] ->
         thrown_by net = Some err ->
         Prediction.error (final (Prediction.handlePredict year s net))
         = Some (message_of err))
  /\ (forall s net,
         calls (Recommendation.handleRecommendation s net) <> [] ->
         thrown_by net = Some err ->
         Recommendation.error
           (final (Recommendation.handleRecommendation s net))
         = Some (message_of err))
  /\ (forall s net,
         thrown_by net = Some err ->
         Properties.error (final (Properties.fetchProperties s net))
         = Some ("Failed to fetch properties: " ++ message_of err))
  /\ (forall propertyId s net,
         thrown_by net = Some err ->
         Properties.error
           (final (Properties.fetchPropertyDetails propertyId s net))
         = Some ("Failed to fetch details: " ++ message_of err)).
Proof.
  repeat apply conj; intros *.
  - destruct (rejected s) eqn:E.
    + destruct (compare_refused s net E) as [msg ->].
      intros H; now contradiction H.
    + rewrite (compare_outcome s net E); intros _ Ht.
      now rewrite (settlement_thrown _ net err Ht).
  - destruct (search_rejected s) eqn:E;
      [rewrite (search_refused s net E); intros H; now contradiction H|].
    rewrite (search_outcome s net E); intros _ Ht.
    now rewrite (settlement_thrown _ net err Ht).
  - destruct (JS.truthy_opt (Prediction.validateForm year s)) eqn:E;
      [rewrite (predict_refused year s net E); intros H; now contradiction H|].
    destruct (predict_outcome year s net E) as (payload & _ & ->).
    intros _ Ht. now rewrite (settlement_thrown _ net err Ht).
  - destruct (JS.truthy_opt (Recommendation.validateForm s)) eqn:E;
      [rewrite (recommend_refused s net E); intros H; now contradiction H|].
    rewrite (recommend_outcome s net E); intros _ Ht.
    now rewrite (settlement_thrown _ net err Ht).
  - intros Ht.
    destruct (fetchProperties_outcome s net) as (req & k & _ & _ & ->).
    now rewrite (settlement_thrown _ net err Ht).
  - intros Ht.
    destruct (fetchPropertyDetails_outcome propertyId s net)
      as (req & k & _ & _ & ->).
    now rewrite (settlement_thrown _ net err Ht).
Qed.

Lemma thrown_message_is_shown_witness :
  CompareProperties.error
    (final (compareProperties CompareProperties.initial Samples.offline))
  = Some "Failed to fetch"
  /\ Properties.error
       (final (Properties.fetchProperties Properties.initial
                 Samples.offline))
     = Some "Failed to fetch properties: Failed to fetch"
  /\ Properties.error
       (final (Properties.fetchPropertyDetails (Samples.num 1)
                 Samples.listed
                 (inr {| Fetch.status := 200; Fetch.json := inl OtherValue |})))
     = Some "Failed to fetch details: Unknown error".
Proof.
  repeat apply conj.
  - apply (thrown_message_is_shown (ErrorObject "Failed to fetch"));
      [vm_compute; discriminate | reflexivity].
  - apply (thrown_message_is_shown (ErrorObject "Failed to fetch")).
    reflexivity.
  - apply (thrown_message_is_shown OtherValue). reflexivity.
Defined.

(** X13. A submission never alters the form: whatever its outcome, the
    validation gives on the state it leaves the verdict it gave before,
    so that a request that was sent and failed can be sent again. *)
Theorem validation_is_unchanged_by_a_submission :
  (forall s net, rejected (final (compareProperties s net)) = rejected s)
  /\ (forall s net,
         search_rejected (final (SearchProperties.handleSearch s net))
         = search_rejected s)
  /\ (forall year s net,
         Prediction.validateForm year
           (final (Prediction.handlePredict year s net))
         = Prediction.validateForm year s)
  /\ (forall s net,
         Recommendation.validateForm
           (final (Recommendation.handleRecommendation s net))
         = Recommendation.validateForm s).
Proof.
  repeat apply conj; intros.
  - destruct (rejected s) eqn:E.
    + destruct (compare_refused s net E) as [msg ->]. exact E.
    + rewrite (compare_outcome s net E).
      destruct (settlement _ net); exact E.
  - destruct (search_rejected s) eqn:E.
    + rewrite (search_refused s net E). exact E.
    + rewrite (search_outcome s net E).
      destruct (settlement _ net); exact E.
  - destruct (JS.truthy_opt (Prediction.validateForm year s)) eqn:E.
    + rewrite (predict_refused year s net E). reflexivity.
    + destruct (predict_outcome year s net E) as (payload & _ & ->).
      destruct (settlement _ net); reflexivity.
  - destruct (JS.truthy_opt (Recommendation.validateForm s)) eqn:E.
    + rewrite (recommend_refused s net E). reflexivity.
    + rewrite (recommend_outcome s net E).
      destruct (settlement _ net); reflexivity.
Qed.


(** ** What the requests carry *)

Section Comparisons.

Variables x y : number.

Lemma le_not_NaN :
  (x <= y)%js = true -> JS.isNaN x = false /\ JS.isNaN y = false.
Proof. destruct x, y; simpl; intros; try discriminate; now split. Qed.

Lemma not_le_gt :
  JS.isNaN x = false -> JS.isNaN y = false ->
  (x <= y)%js = false -> (x > y)%js = true.
Proof.
  intros Hx Hy. unfold JS.le, JS.gt, SFleb, SFltb.
  rewrite (SFcompare_swap x y).
  pose proof (SFcompare_not_NaN x y Hx Hy) as Hord.
  destruct (SFcompare x y) as [[ | | ]|]; simpl;
    intros; try discriminate; try reflexivity; contradiction.
Qed.

Lemma not_lt_ge :
  JS.isNaN x = false -> JS.isNaN y = false ->
  (x < y)%js = false -> (x >= y)%js = true.
Proof.
  intros Hx Hy. unfold JS.lt, JS.ge, SFleb, SFltb.
  rewrite (SFcompare_swap x y).
  pose proof (SFcompare_not_NaN x y Hx Hy) as Hord.
  destruct (SFcompare x y) as [[ | | ]|]; simpl;
    intros; try discriminate; try reflexivity; contradiction.
Qed.

End Comparisons.

(** X14. The compare request carries two identifiers that are numbers,
    parsed from two entries that differ as texts. *)
Theorem compare_request_is_validated (s : CompareProperties.State)
    (net : Fetch.settled ComparisonResponse)
    (c : call CompareProperties.State) :
  In c (calls (compareProperties s net)) ->
  exists id1 id2,
    snd c = Fetch.post "http://127.0.0.1:8000/comparebyid"
              (JObj [("id1", JNum id1); ("id2", JNum id2)])
    /\ id1 = JS.parseInt (compareId1 s) /\ id2 = JS.parseInt (compareId2 s)
    /\ JS.isNaN id1 = false /\ JS.isNaN id2 = false
    /\ compareId1 s <> compareId2 s.
Proof.
  destruct (rejected s) eqn:E.
  - destruct (compare_refused s net E) as [msg ->]. intros [].
  - rewrite (compare_outcome s net E). intros [<-|[]].
    unfold rejected in E.
    apply orb_false_iff in E as [E E5].
    apply orb_false_iff in E as [E E4].
    apply orb_false_iff in E as [_ E3].
    do 2 eexists. repeat split; try assumption.
    intros Heq. rewrite Heq, String.eqb_refl in E3. discriminate.
Qed.

Lemma compare_request_is_validated_witness :
  exists id1 id2,
    Fetch.post "http://127.0.0.1:8000/comparebyid"
      (JObj [("id1", JNum (JS.of_Z 1)); ("id2", JNum (JS.of_Z 2))])
    = Fetch.post "http://127.0.0.1:8000/comparebyid"
        (JObj [("id1", JNum id1); ("id2", JNum id2)])
    /\ id1 = JS.parseInt "1" /\ id2 = JS.parseInt "2"
    /\ JS.isNaN id1 = false /\ JS.isNaN id2 = false
    /\ "1" <> "2".
Proof.
  apply (compare_request_is_validated CompareProperties.initial
           Samples.offline
           (after (CompareProperties.setError None)
              (after (setCompareLoading true) CompareProperties.initial),
            Fetch.post "http://127.0.0.1:8000/comparebyid"
              (JObj [("id1", JNum (JS.of_Z 1)); ("id2", JNum (JS.of_Z 2))]))).
  left. reflexivity.
Defined.

(** X15. The search request carries the location without the white
    space around it, which is not empty, a budget that is not zero or
    less, and the preferences that [buildPreferences] builds. *)
Theorem search_request_is_validated (s : SearchProperties.State)
    (net : Fetch.settled JSON) (c : call SearchProperties.State) :
  In c (calls (SearchProperties.handleSearch s net)) ->
  exists place budget,
    snd c = Fetch.post "http://127.0.0.1:8000/findproperties"
              (JObj [("location", JStr place); ("budget", JNum budget);
                     ("preferences", SearchProperties.buildPreferences s)])
    /\ place = JS.trim (SearchProperties.location s)
    /\ place <> ""
    /\ budget = JS.Number (SearchProperties.budget s)
    /\ (budget <= JS.of_Z 0)%js = false.
Proof.
  destruct (search_rejected s) eqn:E.
  - rewrite (search_refused s net E). intros [].
  - rewrite (search_outcome s net E). intros [<-|[]].
    unfold search_rejected in E.
    apply orb_false_iff in E as [E1 E].
    apply orb_false_iff in E as [_ E3].
    do 2 eexists. repeat split; try assumption.
    intros Heq. rewrite Heq in E1. discriminate.
Qed.

Lemma search_request_is_validated_witness :
  exists place budget,
    Fetch.post "http://127.0.0.1:8000/findproperties"
      (JObj [("location", JStr "Austin"); ("budget", JNum (JS.of_Z 500000));
             ("preferences",
              SearchProperties.buildPreferences Samples.search_form)])
    = Fetch.post "http://127.0.0.1:8000/findproperties"
        (JObj [("location", JStr place); ("budget", JNum budget);
               ("preferences",
                SearchProperties.buildPreferences Samples.search_form)])
    /\ place = JS.trim " Austin "
    /\ place <> ""
    /\ budget = JS.Number "500000"
    /\ (budget <= JS.of_Z 0)%js = false.
Proof.
  apply (search_request_is_validated Samples.search_form Samples.offline
           (after (SearchProperties.setError None)
              (after (SearchProperties.setLoading true) Samples.search_form),
            Fetch.post "http://127.0.0.1:8000/findproperties"
              (JObj [("location", JStr "Austin");
                     ("budget", JNum (JS.of_Z 500000));
                     ("preferences",
                      SearchProperties.buildPreferences
                        Samples.search_form)]))).
  left. reflexivity.
Defined.

Lemma positive_pref_in (key value k : string) (v : JSON) :
  In (k, v) (SearchProperties.positive_pref key value) ->
  k = key /\ v = JNum (JS.Number value)
  /\ (JS.Number value > JS.of_Z 0)%js = true.
Proof.
  unfold SearchProperties.positive_pref.
  destruct (JS.truthy (JS.trim value)); [|intros []].
  destruct (JS.Number value > JS.of_Z 0)%js eqn:E; [|intros []].
  intros [H|[]]. inversion H. auto.
Qed.

(** X16. The preferences of a search are [undefined] or an object that
    is not empty; every number in it is greater than zero, and its
    amenities are a list that is not empty of names that are not
    empty. *)
Theorem preferences_are_well_formed (s : SearchProperties.State) :
  SearchProperties.buildPreferences s = JUndefined
  \/ exists fields,
      SearchProperties.buildPreferences s = JObj fields
      /\ fields <> []
      /\ (forall key x,
             In (key, JNum x) fields -> (x > JS.of_Z 0)%js = true)
      /\ (forall key items,
             In (key, JArr items) fields ->
             key = "amenities" /\ items <> []
             /\ forall item, In item items ->
                  exists name, item = JStr name /\ name <> "").
Proof.
  unfold SearchProperties.buildPreferences.
  set (names :=
         filter JS.truthy
           (map JS.trim (JS.split "," (SearchProperties.amenitiesInput s)))).
  set (prefs := (_ ++ _)%list).
  destruct (0 <? List.length prefs)%nat eqn:E; [right|now left].
  exists prefs. split; [reflexivity|]. split.
  { intros Heq. rewrite Heq in E. discriminate. }
  assert (Hin : forall k v, In (k, v) prefs ->
            (exists value, v = JNum (JS.Number value)
                           /\ (JS.Number value > JS.of_Z 0)%js = true)
            \/ (k = "amenities" /\ v = JArr (map JStr names)
                /\ names <> [])).
  { intros k v. unfold prefs. rewrite !in_app_iff.
    intros [H|[H|[H|H]]];
      try (apply positive_pref_in in H as (_ & -> & Hgt); left; eauto).
    destruct (JS.truthy (JS.trim (SearchProperties.amenitiesInput s)));
      [|destruct H].
    destruct (0 <? List.length names)%nat eqn:En; [|destruct H].
    destruct H as [H|[]]. inversion H; subst k v. right.
    repeat split. intros Heq. rewrite Heq in En. discriminate. }
  split.
  - intros key x H. apply Hin in H as [(value & Hv & Hgt)|(_ & Hv & _)];
      [|discriminate].
    now inversion Hv.
  - intros key items H.
    apply Hin in H as [(value & Hv & _)|(-> & Hv & Hne)]; [discriminate|].
    inversion Hv; subst items. split; [reflexivity|]. split.
    + destruct names; [now contradiction Hne|discriminate].
    + intros item Hitem. apply in_map_iff in Hitem as (name & <- & Hname).
      exists name. split; [reflexivity|].
      apply filter_In in Hname as [_ Ht]. now destruct name.
Qed.

Lemma validateField_range (value : string) (lo hi : number) :
  Prediction.validateField value lo hi = true ->
  (lo <= JS.Number value)%js = true /\ (JS.Number value <= hi)%js = true.
Proof.
  unfold Prediction.validateField, JS.ge.
  intros H. apply andb_true_iff in H as [H H4].
  apply andb_true_iff in H as [_ H3]. now split.
Qed.

(** What a form that passes [validateForm] has been checked for. *)
Lemma validateForm_accepts (year : N) (s : Prediction.State) :
  JS.truthy_opt (Prediction.validateForm year s) = false ->
  (String.eqb (Prediction.propertyType s) "SFH" = true ->
   Prediction.validateField (Prediction.lotArea s) (JS.of_Z 1) JS.Infinity
   = true)
  /\ (String.eqb (Prediction.propertyType s) "Condo" = true ->
      Prediction.validateField (Prediction.buildingArea s) (JS.of_Z 1)
        JS.Infinity = true)
  /\ Prediction.validateField (Prediction.bedrooms s) (JS.of_Z 0)
       (JS.of_Z 50) = true
  /\ Prediction.validateField (Prediction.bathrooms s) (JS.of_Z 0)
       (JS.of_Z 20) = true
  /\ Prediction.validateField (Prediction.yearBuilt s) (JS.of_Z 1800)
       (JS.of_Z (Z.of_N (year + 5))) = true
  /\ Prediction.validateField (Prediction.schoolRating s) (JS.of_Z 1)
       (JS.of_Z 10) = true.
Proof.
  unfold Prediction.validateForm.
  destruct (String.eqb (Prediction.propertyType s) "SFH") eqn:T1;
    destruct (String.eqb (Prediction.propertyType s) "Condo") eqn:T2;
    destruct (Prediction.validateField (Prediction.lotArea s) _ _) eqn:V1;
    destruct (Prediction.validateField (Prediction.buildingArea s) _ _)
      eqn:V2;
    cbn [andb negb]; try (intros; discriminate);
    destruct (Prediction.validateField (Prediction.bedrooms s) _ _) eqn:V3;
    cbn [negb]; try (intros; discriminate);
    destruct (Prediction.validateField (Prediction.bathrooms s) _ _) eqn:V4;
    cbn [negb]; try (intros; discriminate);
    destruct (Prediction.validateField (Prediction.yearBuilt s) _ _) eqn:V5;
    cbn [negb]; try (intros; discriminate);
    destruct (Prediction.validateField (Prediction.schoolRating s) _ _)
      eqn:V6;
    cbn [negb]; try (intros; discriminate);
    intros _; repeat split; intros; try reflexivity; discriminate.
Qed.

(** X17. Every number that the prediction request carries is within the
    range that the form validation accepts for its field, so none is
    not-a-number: bedrooms 0-50, bathrooms 0-20, year built from 1800 to
    five years ahead, school rating 1-10, and an area of at least 1. *)
Theorem prediction_request_is_validated (year : N) (s : Prediction.State)
    (net : Fetch.settled JSON) (c : call Prediction.State) :
  In c (calls (Prediction.handlePredict year s net)) ->
  exists fields,
    snd c = Fetch.post "https://agentmira-backend.onrender.com/predict"
              (JObj fields)
    /\ forall key x,
         In (key, JNum x) fields ->
         (fst (prediction_range year key) <= x)%js = true
         /\ (x <= snd (prediction_range year key))%js = true.
Proof.
  destruct (JS.truthy_opt (Prediction.validateForm year s)) eqn:E.
  - rewrite (predict_refused year s net E). intros [].
  - destruct (predict_outcome year s net E) as (payload & Hp & ->).
    intros [<-|[]]. exists payload. split; [reflexivity|].
    destruct (validateForm_accepts year s E)
      as (A1 & A2 & A3 & A4 & A5 & A6).
    intros key x. rewrite Hp, !in_app_iff. cbn [In].
    intros [H|[H|H]].
    + repeat (destruct H as [H|H];
              [solve [inversion H; subst; now apply validateField_range]|]).
      destruct H.
    + destruct (String.eqb (Prediction.propertyType s) "SFH");
        [|destruct H].
      destruct H as [H|[]]. inversion H; subst key x.
      now apply validateField_range, A1.
    + destruct (String.eqb (Prediction.propertyType s) "Condo");
        [|destruct H].
      destruct H as [H|[]]. inversion H; subst key x.
      now apply validateField_range, A2.
Qed.

Lemma prediction_request_is_validated_witness :
  exists fields,
    snd (after (Prediction.setError None)
           (after (Prediction.setLoading true) Samples.prediction_form),
         Samples.prediction_request)
    = Fetch.post "https://agentmira-backend.onrender.com/predict"
        (JObj fields)
    /\ forall key x,
         In (key, JNum x) fields ->
         (fst (prediction_range 2026 key) <= x)%js = true
         /\ (x <= snd (prediction_range 2026 key))%js = true.
Proof.
  apply (prediction_request_is_validated 2026 Samples.prediction_form
           Samples.offline).
  left. reflexivity.
Defined.

(** X18. The recommendation request carries a budget greater than zero
    and a number of bedrooms of at least one. *)
Theorem recommendation_request_is_validated (s : Recommendation.State)
    (net : Fetch.settled JSON) (c : call Recommendation.State) :
  In c (calls (Recommendation.handleRecommendation s net)) ->
  exists budget bedrooms,
    snd c = Fetch.post "http://127.0.0.1:8000/recommend"
              (JObj [("user_budget", JNum budget);
                     ("user_min_bedrooms", JNum bedrooms)])
    /\ (budget > JS.of_Z 0)%js = true
    /\ (bedrooms >= JS.of_Z 1)%js = true.
Proof.
  destruct (JS.truthy_opt (Recommendation.validateForm s)) eqn:E.
  - rewrite (recommend_refused s net E). intros [].
  - rewrite (recommend_outcome s net E). intros [<-|[]].
    do 2 eexists. split; [reflexivity|].
    unfold Recommendation.validateForm in E.
    destruct (negb (JS.truthy (JS.trim (Recommendation.userBudget s))));
      [discriminate|].
    destruct (JS.isNaN (JS.Number (Recommendation.userBudget s))) eqn:N1;
      [discriminate|].
    destruct (JS.Number (Recommendation.userBudget s) <= JS.of_Z 0)%js
      eqn:L1; [discriminate|].
    cbn [orb] in E.
    destruct (negb (JS.truthy (JS.trim (Recommendation.userMinBedrooms s))));
      [discriminate|].
    destruct (JS.isNaN (JS.Number (Recommendation.userMinBedrooms s)))
      eqn:N2; [discriminate|].
    destruct (JS.Number (Recommendation.userMinBedrooms s) < JS.of_Z 1)%js
      eqn:L2; [discriminate|].
    split.
    + now apply not_le_gt.
    + now apply not_lt_ge.
Qed.

Lemma recommendation_request_is_validated_witness :
  exists budget bedrooms,
    Fetch.post "http://127.0.0.1:8000/recommend"
      (JObj [("user_budget", JNum (JS.of_Z 450000));
             ("user_min_bedrooms", JNum (JS.of_Z 2))])
    = Fetch.post "http://127.0.0.1:8000/recommend"
        (JObj [("user_budget", JNum budget);
               ("user_min_bedrooms", JNum bedrooms)])
    /\ (budget > JS.of_Z 0)%js = true
    /\ (bedrooms >= JS.of_Z 1)%js = true.
Proof.
  apply (recommendation_request_is_validated Samples.recommendation_form
           Samples.offline
           (after (Recommendation.setError None)
              (after (Recommendation.setLoading true)
                 Samples.recommendation_form),
            Fetch.post "http://127.0.0.1:8000/recommend"
              (JObj [("user_budget", JNum (JS.of_Z 450000));
                     ("user_min_bedrooms", JNum (JS.of_Z 2))]))).
  left. reflexivity.
Defined.

(** ** The form before a submission *)

(** X19. Choosing a property type empties the two areas, so that the
    next prediction is refused, without a call, until the area of that
    type is entered. *)
Theorem type_change_requires_area (year : N) (s : Prediction.State)
    (net : Fetch.settled JSON) :
  let sfh := final (Prediction.changePropertyType "SFH" s) in
  let condo := final (Prediction.changePropertyType "Condo" s) in
  (calls (Prediction.handlePredict year sfh net) = []
   /\ Prediction.error (final (Prediction.handlePredict year sfh net))
      = Some "Please enter a valid lot area (greater than 0)")
  /\ (calls (Prediction.handlePredict year condo net) = []
      /\ Prediction.error (final (Prediction.handlePredict year condo net))
         = Some "Please enter a valid building area (greater than 0)").
Proof. repeat split. Qed.

(** X20. After a reset a submission is refused without a call: the search
    panel asks for the location, the prediction panel for the lot area
    and the recommendation panel for the budget. *)
Theorem submission_after_reset_is_refused :
  (forall s net,
      let o := SearchProperties.handleSearch
                 (final (SearchProperties.resetForm s)) net in
      calls o = []
      /\ SearchProperties.error (final o) = Some "Location is required")
  /\ (forall year s net,
         let o := Prediction.handlePredict year
                    (final (Prediction.resetForm s)) net in
         calls o = []
         /\ Prediction.error (final o)
            = Some "Please enter a valid lot area (greater than 0)")
  /\ (forall s net,
         let o := Recommendation.handleRecommendation
                    (final (Recommendation.resetForm s)) net in
         calls o = []
         /\ Recommendation.error (final o)
            = Some "Please enter a valid budget (greater than 0)").
Proof. repeat split. Qed.


(** ** The listing panel *)

Lemma settlement_success {B : Type} (msg : Fetch.response B -> string)
    (net : Fetch.settled B) (b : B) :
  succeeded net = Some b -> settlement msg net = inr b.
Proof.
  rewrite (settlement_succeeded msg net).
  destruct (settlement msg net); congruence.
Qed.

Lemma settlement_failure {B : Type} (msg : Fetch.response B -> string)
    (net : Fetch.settled B) :
  succeeded net = None -> exists m, settlement msg net = inl m.
Proof.
  rewrite (settlement_succeeded msg net).
  destruct (settlement msg net); [eauto|discriminate].
Qed.

(** The state that [fetchProperties] leaves. *)
Lemma fetchProperties_final (s : Properties.State)
    (net : Fetch.settled JSON) :
  let pending :=
    after (Properties.setError None)
      (after (Properties.setLoading true) s) in
  let failed m :=
    after (Properties.setLoading false)
      (after (Properties.setError
                (Some ("Failed to fetch properties: " ++ m))) pending) in
  let emptied :=
    after (Properties.setLoading false)
      (after (Properties.setTotalProperties (JNum (JS.of_Z 0)))
         (after (Properties.setProperties []) pending)) in
  final (Properties.fetchProperties s net)
  = match settlement (fun r => http_error (Fetch.status r)) net with
    | inl m => failed m
    | inr b =>
        match get_property b "status" with
        | inl e => failed (message_of e)
        | inr status =>
            if is_string "success" status then
              match get_property b "properties" with
              | inl e => failed (message_of e)
              | inr v =>
                  match isArray v with
                  | Some items =>
                      match get_property b "total_properties" with
                      | inl e =>
                          after (Properties.setLoading false)
                            (after (Properties.setError
                                      (Some ("Failed to fetch properties: "
                                             ++ message_of e)))
                               (after (Properties.setProperties items)
                                  pending))
                      | inr total =>
                          after (Properties.setLoading false)
                            (after (Properties.setTotalProperties total)
                               (after (Properties.setProperties items)
                                  pending))
                      end
                  | None => emptied
                  end
              end
            else emptied
        end
    end.
Proof.
  cbv zeta.
  destruct (fetchProperties_outcome s net) as (req & k & _ & Hk & ->).
  destruct (settlement _ net) as [m|b]; [reflexivity|].
  cbv zeta. rewrite Hk.
  unfold Properties.setProperties, Properties.setTotalProperties.
  rewrite bind_lift.
  destruct (get_property b "status") as [e|status]; [reflexivity|].
  rewrite bind_if.
  destruct (is_string "success" status); [|reflexivity].
  rewrite bind_bind, bind_lift.
  destruct (get_property b "properties") as [e|v]; [reflexivity|].
  rewrite bind_ret.
  destruct (isArray v) as [items|]; [|reflexivity].
  rewrite bind_set, bind_lift.
  destruct (get_property b "total_properties"); reflexivity.
Qed.


(** X21. A refresh that fails keeps the list and the total that were
    shown, clears the loading indicator and stores a message that starts
    with "Failed to fetch properties: ". *)
Theorem failed_refresh_keeps_the_list (s : Properties.State)
    (net : Fetch.settled JSON) :
  succeeded net = None ->
  let s' := final (Properties.fetchProperties s net) in
  Properties.properties s' = Properties.properties s
  /\ Properties.totalProperties s' = Properties.totalProperties s
  /\ Properties.loading s' = false
  /\ exists msg,
      Properties.error s' = Some ("Failed to fetch properties: " ++ msg).
Proof.
  intros H. cbv zeta. rewrite fetchProperties_final.
  destruct (settlement_failure (fun r => http_error (Fetch.status r)) net H)
    as [m ->].
  repeat split. now exists m.
Qed.

Lemma failed_refresh_keeps_the_list_witness :
  let s' := final (Properties.fetchProperties Samples.listed
                     Samples.unavailable) in
  Properties.properties s' = Properties.properties Samples.listed
  /\ Properties.totalProperties s'
     = Properties.totalProperties Samples.listed
  /\ Properties.loading s' = false
  /\ exists msg,
      Properties.error s' = Some ("Failed to fetch properties: " ++ msg).
Proof.
  apply (failed_refresh_keeps_the_list Samples.listed Samples.unavailable).
  reflexivity.
Defined.

(** X22. A refresh answered with a body whose status can be read stores
    no error and clears the loading indicator; when the status is
    'success' and the properties are an array, the list and the total
    are those of the body; when the status is anything else, or the
    properties are no array, the list is emptied and the total is 0. *)
Theorem refresh_stores_or_empties_the_list (s : Properties.State)
    (net : Fetch.settled JSON) (body status v total : JSON) :
  succeeded net = Some body ->
  get_property body "status" = inr status ->
  get_property body "properties" = inr v ->
  get_property body "total_properties" = inr total ->
  let s' := final (Properties.fetchProperties s net) in
  Properties.error s' = None
  /\ Properties.loading s' = false
  /\ (Properties.properties s', Properties.totalProperties s')
     = match isArray v with
       | Some items =>
           if is_string "success" status then (items, total)
           else ([], JNum (JS.of_Z 0))
       | None => ([], JNum (JS.of_Z 0))
       end.
Proof.
  intros H Hs Hv Ht. cbv zeta. rewrite fetchProperties_final.
  rewrite (settlement_success _ net body H), Hs, Hv, Ht.
  destruct (is_string "success" status), (isArray v); repeat split.
Qed.

Lemma refresh_stores_or_empties_the_list_witness :
  let s' := final (Properties.fetchProperties Properties.initial
                     (Samples.answered Samples.listing)) in
  Properties.error s' = None
  /\ Properties.loading s' = false
  /\ (Properties.properties s', Properties.totalProperties s')
     = ([JObj [("id", JNum (Samples.num 1)); ("title", JStr "Family home")];
         JObj [("id", JNum (Samples.num 2)); ("title", JStr "Loft")]],
        JNum (Samples.num 2)).
Proof.
  apply (refresh_stores_or_empties_the_list Properties.initial
           (Samples.answered Samples.listing) Samples.listing
           (JStr "success")
           (JArr [JObj [("id", JNum (Samples.num 1));
                        ("title", JStr "Family home")];
                  JObj [("id", JNum (Samples.num 2)); ("title", JStr "Loft")]])
           (JNum (Samples.num 2)));
    reflexivity.
Defined.








(** ** The shell *)

(** X27. The sidebar never highlights two entries; it highlights an
    entry on the path its link leads to; and on the path of each route,
    the entry highlighted is the one whose link leads to the panel that
    the route renders. *)
Theorem sidebar_highlights_the_panel_shown :
  (forall pathname e e',
      Dashboard.className pathname e = "active" ->
      Dashboard.className pathname e' = "active" -> e = e')
  /\ (forall e, Dashboard.className (Dashboard.link e) e = "active")
  /\ (forall path p e,
         In (path, p) Dashboard.routes ->
         (Dashboard.className path e = "active"
          <-> In (Dashboard.link e, p) Dashboard.routes)).
Proof.
  repeat apply conj.
  - intros pathname e e'. unfold Dashboard.className.
    destruct (String.eqb_spec pathname "/") as [->|_];
      [destruct e, e'; simpl; intros; try reflexivity; discriminate|].
    destruct (String.eqb_spec pathname "/properties") as [->|_];
      [destruct e, e'; simpl; intros; try reflexivity; discriminate|].
    destruct (String.eqb_spec pathname "/compare") as [->|_];
      [destruct e, e'; simpl; intros; try reflexivity; discriminate|].
    destruct (String.eqb_spec pathname "/search") as [->|_];
      [destruct e, e'; simpl; intros; try reflexivity; discriminate|].
    destruct (String.eqb_spec pathname "/prediction") as [->|_];
      [destruct e, e'; simpl; intros; try reflexivity; discriminate|].
    destruct (String.eqb_spec pathname "/recommendation") as [->|_];
      [destruct e, e'; simpl; intros; try reflexivity; discriminate|].
    destruct e; simpl; intros; discriminate.
  - intros e; destruct e; reflexivity.
  - intros path p e H. simpl in H.
    repeat (destruct H as [H|H];
            [inversion H; subst path p; destruct e; simpl;
             split; intros C; try reflexivity; try discriminate;
             try (repeat (destruct C as [C|C]; try discriminate);
                  now destruct C);
             tauto|]).
    destruct H.
Qed.

Lemma sidebar_highlights_the_panel_shown_witness :
  Dashboard.className "/" Dashboard.PropertiesEntry = "active"
  <-> In (Dashboard.link Dashboard.PropertiesEntry, ListPanel)
         Dashboard.routes.
Proof.
  apply (proj2 (proj2 sidebar_highlights_the_panel_shown)).
  left. reflexivity.
Defined.
